(** * DeepLearningTools: the semantic-segmentation input pipeline

    A shallow embedding of
    [deeplearningtools/DataProvider_input_pipeline.py]
    (class [FileListProcessor_Semantic_Segmentation] and the entropy
    helpers it calls), with the properties of its crop planner, filter
    chain, transform chain and constructor.

    Conventions.
    - Python exceptions are values of [exn]; a call that may raise returns
      [result A := exn + A].
    - A pixel is an IEEE-754 datum ([spec_float]); float32 arithmetic is the
      Standard Library's [SpecFloat] at precision 24, float64 at 53.
    - int32 tensors are [Z] with the wrap-around written out ([wrap32]).
    - A tensor of rank 3 (height, width, channels) is a list of rows of
      pixels, each pixel a list of channel values.
    - TensorFlow's random ops draw from an explicit generator state. *)

From Stdlib Require Import String Ascii.
From Stdlib Require Import ZArith List Bool Lia Permutation.
From Stdlib Require Import QArith Qround Qreals Reals Lra.
From Stdlib Require Import Floats.SpecFloat.
Import ListNotations.

Open Scope string_scope.
Open Scope list_scope.
Open Scope Z_scope.

(** ** Exceptions and fallible computations *)

Inductive exn : Type :=
| ValueError (msg : string)
| AttributeError (attr : string)
| UnboundLocalError (var : string)
| IndexError (msg : string)
| OverflowError (msg : string)
| ZeroDivisionError (msg : string)
| InvalidArgumentError (msg : string).

Definition result (A : Type) : Type := (exn + A)%type.

Definition ok {A : Type} (a : A) : result A := inr a.
Definition raise {A : Type} (e : exn) : result A := inl e.

Definition bind {A B : Type} (m : result A) (k : A -> result B) : result B :=
  match m with
  | inl e => inl e
  | inr a => k a
  end.

Notation "x <- m ;; k" := (bind m (fun x => k))
  (at level 61, m at next level, right associativity).
Notation "' p <- m ;; k" := (bind m (fun p => k))
  (at level 61, p pattern, m at next level, right associativity).

(** ** Machine numbers *)

Module Int32.

Definition min_signed : Z := - 2 ^ 31.
Definition max_signed : Z := 2 ^ 31 - 1.

  (** Two's-complement wrap-around of an int32 tensor operation. *)
Definition wrap32 (z : Z) : Z := (z + 2 ^ 31) mod 2 ^ 32 - 2 ^ 31.

Definition in_range (z : Z) : bool := (min_signed <=? z) && (z <=? max_signed).

End Int32.

(** Truncation of a float toward zero, at any precision ([m * 2^e] with
    the sign [s]); NaN and the infinities have no integer value and are sent
    to the "integer indefinite" value of the CPU's conversion. *)
Definition float_trunc (x : spec_float) : Z :=
  match x with
  | S754_zero _ => 0
  | S754_finite s m e =>
      let mag := if 0 <=? e then Z.shiftl (Zpos m) e
                 else Z.shiftr (Zpos m) (- e) in
      if s then - mag else mag
  | _ => Int32.min_signed
  end.

Module F32.

Definition prec : Z := 24.
Definition emax : Z := 128.

Definition zero : spec_float := S754_zero false.

  (** [tf.cast(z, tf.float32)] and [tf.constant(z, dtype=tf.float32)]:
      round to nearest, ties to even. *)
Definition of_Z (z : Z) : spec_float := binary_normalize prec emax z 0 false.

  (** A Python float (binary64) entering a float32 expression. *)
Definition of_f64 (x : spec_float) : spec_float :=
    match x with
    | S754_finite s m e => binary_round prec emax s m e
    | _ => x
    end.

Definition mul : spec_float -> spec_float -> spec_float := SFmul prec emax.
Definition div : spec_float -> spec_float -> spec_float := SFdiv prec emax.

Definition is_nan (x : spec_float) : bool :=
    match x with
    | S754_nan => true
    | _ => false
    end.

  (** [tf.cast(x, tf.int32)]: truncation toward zero; a value outside
      int32 gives [min_signed], as a NaN or an infinity does. *)
Definition to_int32 (x : spec_float) : Z :=
    let v := float_trunc x in
    if Int32.in_range v then v else Int32.min_signed.

End F32.

Module F64.

Definition prec : Z := 53.
Definition emax : Z := 1024.

  (** The binary64 datum nearest to [m * 2^e]. *)
Definition of_dyadic (m e : Z) : spec_float := binary_normalize prec emax m e false.

  (** Python's [x <= 0] on a float: false on NaN. *)
Definition le_zero (x : spec_float) : bool := SFleb x (S754_zero false).

End F64.

(** ** Tensors of rank 3 *)

Definition pixel : Type := spec_float.
Definition image : Type := list (list (list pixel)).

Module Tensor.

Definition height (img : image) : Z := Z.of_nat (length img).

Definition width (img : image) : Z :=
    match img with
    | [] => 0
    | row :: _ => Z.of_nat (length row)
    end.

  (** [has_shape h w c img]: [tf.shape(img) = [h, w, c]]. *)
Definition has_shape (h w c : nat) (img : image) : Prop :=
    length img = h /\
    Forall (fun row => length row = w /\ Forall (fun px => length px = c) row) img.


Definition slice_list {A : Type} (begin size : nat) (l : list A) : list A :=
    firstn size (skipn begin l).

  (** [tf.slice(img, begin=[0,0,b], size=[-1,-1,n])]. *)
Definition slice_channels (b n : nat) (img : image) : image :=
    map (map (slice_list b n)) img.

  (** [tf.concat([x, y], axis=2)] on tensors of equal height and width. *)
Definition concat_channels (x y : image) : image :=
    map (fun '(rx, ry) => map (fun '(px, py) => px ++ py) (combine rx ry))
        (combine x y).

  (** [tf.reshape(img, [-1])]: row-major flattening. *)
Definition flatten (img : image) : list pixel := concat (concat img).

Definition map_pixels (f : pixel -> pixel) (img : image) : image :=
    map (map (map f)) img.

Definition flip_left_right (img : image) : image := map (@rev _) img.
Definition flip_up_down (img : image) : image := rev img.

  (** [tf.transpose(img, [1, 0, 2])]. *)
Fixpoint transpose (img : image) : image :=
    match img with
    | [] => []
    | row :: rest =>
        match rest with
        | [] => map (fun px => [px]) row
        | _ :: _ => map (fun '(px, col) => px :: col) (combine row (transpose rest))
        end
    end.

  (** [tf.image.rot90(img, k)]: [k] quarter turns counter-clockwise,
      dispatched on [k mod 4] as the library does. *)
Definition rot90 (img : image) (k : Z) : image :=
    match k mod 4 with
    | 1 => transpose (flip_left_right img)
    | 2 => flip_up_down (flip_left_right img)
    | 3 => flip_left_right (transpose img)
    | _ => img
    end.

  (** [tf.image.crop_to_bounding_box(img, top, left, th, tw)]; the library
      asserts that the box is non-empty and inside the image. *)
Definition crop_to_bounding_box (img : image) (top left th tw : Z) : result image :=
    if top <? 0 then raise (InvalidArgumentError "offset_height must be >= 0")
    else if left <? 0 then raise (InvalidArgumentError "offset_width must be >= 0")
    else if tw <=? 0 then raise (InvalidArgumentError "target_width must be > 0")
    else if th <=? 0 then raise (InvalidArgumentError "target_height must be > 0")
    else if width img <? tw + left
      then raise (InvalidArgumentError "width must be >= target + offset")
    else if height img <? th + top
      then raise (InvalidArgumentError "height must be >= target + offset")
    else ok (map (slice_list (Z.to_nat left) (Z.to_nat tw))
                 (slice_list (Z.to_nat top) (Z.to_nat th) img)).

End Tensor.

(** ** Random number generators *)

(** The process-wide generator behind the stateful op [tf.random.uniform]
    called without a seed: a sequence of raw draws and a read position.  The
    pipeline never seeds it, so its draws are an input of a run that the
    master seed does not determine. *)
Record global_generator : Type := {
  draws : nat -> Z;
  position : nat
}.

Definition take_draws (g : global_generator) (n : nat) : list Z * global_generator :=
  (map (draws g) (seq (position g) n),
   {| draws := draws g; position := (position g + n)%nat |}).

(** [tf.random.uniform([n], minval, maxval, dtype=tf.int32)]: an empty
    output is produced before the range is looked at; otherwise the kernel
    requires [minval < maxval] and reduces each raw draw modulo the range. *)
Definition random_uniform_int (g : global_generator) (n minval maxval : Z)
  : result (list Z * global_generator) :=
  if n <? 0 then raise (InvalidArgumentError "Shape must be non-negative")
  else if n =? 0 then ok ([], g)
  else if minval <? maxval then
    let '(raw, g') := take_draws g (Z.to_nat n) in
    ok (map (fun r => minval + r mod (maxval - minval)) raw, g')
  else raise (InvalidArgumentError "Need minval < maxval").

(** [tf.range(start, limit, delta, dtype=tf.int32)]. *)
Definition tf_range (start limit delta : Z) : result (list Z) :=
  if delta =? 0 then raise (InvalidArgumentError "Requires delta != 0")
  else if 0 <? delta then
    if start <=? limit then
      ok (map (fun i => start + Z.of_nat i * delta)
              (seq 0 (Z.to_nat ((limit - start + delta - 1) / delta))))
    else raise (InvalidArgumentError "Requires start <= limit when delta > 0")
  else
    if limit <=? start then
      ok (map (fun i => start + Z.of_nat i * delta)
              (seq 0 (Z.to_nat ((start - limit - delta - 1) / (- delta)))))
    else raise (InvalidArgumentError "Requires start >= limit when delta < 0").

(** The pipeline's own generator,
    [tf.random.Generator.from_seed(self.seed, alg='philox')]: its state is
    the master seed and the number of seeds issued so far, and
    [make_seeds(2)[0]] hands out that state as the seed of one crop. *)
Record philox : Type := {
  key : Z;
  counter : nat
}.

Definition seed : Type := philox.

Definition from_seed (s : Z) : philox := {| key := s; counter := 0 |}.

Definition make_seeds (rng : philox) : seed * philox :=
  (rng, {| key := key rng; counter := S (counter rng) |}).

(** ** Output precision *)

Inductive dtype : Type := float16 | float32 | float64.

(** [tf.cast(x, dtype)] on a float32 pixel. *)
Definition cast_pixel (d : dtype) (x : pixel) : pixel :=
  match d, x with
  | float16, S754_finite s m e => binary_round 11 16 s m e
  | _, _ => x
  end.

Definition cast (d : dtype) (img : image) : image := Tensor.map_pixels (cast_pixel d) img.

(** ** The instance state of [FileListProcessor_Semantic_Segmentation] *)

Record FileListProcessor : Type := {
  filelist : list string;
  nbEpoch : Z;
  shuffle_samples : bool;
  patch_ratio_vs_input : spec_float;
  max_patches_per_image : Z;
  image_area_coverage_factor : spec_float;
  num_reader_threads : Z;
  apply_random_flip_left_right : bool;
  apply_random_flip_up_down : bool;
  apply_random_rot90 : bool;
  apply_random_brightness : option Q;
  apply_random_saturation : option Q;
  apply_random_contrast : option Q;
  apply_whitening : bool;
  batch_size : Z;
  balance_classes_distribution : bool;
  classes_entropy_threshold : Q;
  field_of_view : Z;
  manage_nan_values : option string;
  additionnal_filters : list (image -> bool);
  crops_postprocess : option (image -> seed -> image);
  out_dtype : dtype;
  master_seed : Z;
  (* derived by the constructor *)
  no_reference : bool;
  single_image_raw_depth : Z;
  single_image_reference_depth : Z;
  radius_of_view : Z;
  patchSize : Z;
  full_frame_mode : bool;
  image_loading_fn : string -> result image
}.

(** ** SampleGeometryPlanner: the boxes of [crops_dataset] *)

Module Planner.

  (** [self.nbPatches] of the random branch, before saturation: the float32
      expression
      [image_area_coverage_factor * cast(height*width) / constant(patchSize*patchSize)]
      cast to int32. *)
Definition number_of_patches (self : FileListProcessor) (height width : Z) : Z :=
    F32.to_int32
      (F32.div
         (F32.mul (F32.of_f64 (image_area_coverage_factor self))
                  (F32.of_Z (Int32.wrap32 (height * width))))
         (F32.of_Z (patchSize self * patchSize self))).

Definition saturate_number_of_patches (self : FileListProcessor) (height width : Z) : Z :=
    Z.min (number_of_patches self height width) (max_patches_per_image self).

  (** Scope [prepare_crops_bbox]: the list [boxes_raw] of (top, left). *)
Definition prepare_crops_bbox (self : FileListProcessor) (g : global_generator)
             (height width : Z) : result (list (Z * Z) * global_generator) :=
    if shuffle_samples self then
      let nbPatches := saturate_number_of_patches self height width in
      '(top_coord, g1) <-
        random_uniform_int g nbPatches 0 (Int32.wrap32 (height - patchSize self)) ;;
      '(left_coord, g2) <-
        random_uniform_int g1 nbPatches 0 (Int32.wrap32 (width - patchSize self)) ;;
      ok (combine top_coord left_coord, g2)
    else
      let stride := patchSize self - 2 * radius_of_view self in
      top_coord <- tf_range 0 (Int32.wrap32 (height - patchSize self)) stride ;;
      left_coord <- tf_range 0 (Int32.wrap32 (width - patchSize self)) stride ;;
      (* meshgrid, then both grids flattened row by row *)
      ok (flat_map (fun l => map (fun t => (t, l)) top_coord) left_coord, g).

Definition get_crop (self : FileListProcessor) (input_image : image) (boxe : Z * Z)
    : result image :=
    Tensor.crop_to_bounding_box input_image (fst boxe) (snd boxe)
                                (patchSize self) (patchSize self).

End Planner.

(** ** FilterChain *)

Module Filters.

  (** [tf.histogram_fixed_width(values, value_range=[lo, hi], nbins)] on
      int32 values: the bin of [v] is
      [min(nbins - 1, floor((max(v, lo) - lo) / ((hi - lo) / nbins)))]. *)
Definition index_to_bin (lo hi nbins v : Z) : Z :=
    Z.min (nbins - 1) ((Z.max v lo - lo) * nbins / (hi - lo)).

Definition count_occ_Z (b : Z) (l : list Z) : Z :=
    Z.of_nat (length (filter (Z.eqb b) l)).

Definition histogram_fixed_width (values : list Z) (lo hi nbins : Z) : list Z :=
    let bins := map (index_to_bin lo hi nbins) values in
    map (fun b => count_occ_Z (Z.of_nat b) bins) (seq 0 (Z.to_nat nbins)).

Definition reduce_sum_Z (l : list Z) : Z := fold_right Z.add 0 l.
Definition reduce_sum_R (l : list R) : R := fold_right Rplus 0%R l.

Definition count_nonzero (l : list Z) : Z :=
    Z.of_nat (length (filter (fun c => negb (c =? 0)) l)).

  (** The regularisation constant written [0.001] in the source. *)
Definition epsilon : R := (1 / 1000)%R.

  (** [normalised_entropy(counts)], with the float32 arithmetic read over
      the reals. *)
Definition normalised_entropy (counts : list Z) : R :=
    let classes_prob :=
      map (fun c => (IZR c / IZR (reduce_sum_Z counts))%R) counts in
    let entropy :=
      (- reduce_sum_R (map (fun p => (p * ln (p + epsilon))%R) classes_prob))%R in
    (entropy / ln (epsilon + IZR (count_nonzero counts)))%R.

  (** [get_sample_entropy_int(sample)]. *)
Definition get_sample_entropy_int (sample : list pixel) : R :=
    let counts := histogram_fixed_width (map F32.to_int32 sample) 0 255 256 in
    normalised_entropy counts.

  (** [tf.greater(x, y)] on reals. *)
Definition greater (x y : R) : bool := if Rlt_dec y x then true else false.

Definition ref_slice (self : FileListProcessor) (crop : image) : image :=
    Tensor.slice_channels (Z.to_nat (single_image_raw_depth self))
                          (Z.to_nat (single_image_reference_depth self)) crop.

Definition balance_classes_entropy (self : FileListProcessor) (crop : image) : bool :=
    greater (get_sample_entropy_int (Tensor.flatten (ref_slice self crop)))
            (Q2R (classes_entropy_threshold self)).

Definition has_no_nans (crop : image) : bool :=
    negb (existsb F32.is_nan (Tensor.flatten crop)).

  (** [_setup_crop_filters]: the value of [self.additionnal_filters] once
      the two optional filters have been inserted at index 0. *)
Definition _setup_crop_filters (self : FileListProcessor) : list (image -> bool) :=
    let fs := additionnal_filters self in
    let fs :=
      if balance_classes_distribution self && negb (no_reference self)
      then balance_classes_entropy self :: fs else fs in
    match manage_nan_values self with
    | Some mode => if String.eqb mode "avoid" then has_no_nans :: fs else fs
    | None => fs
    end.

  (** The loop of [crop_filter]:
      [filter_ok = True; for i in range(nb_filters): filter_ok &= filters[i](crop)]. *)
Definition crop_filter (filters : list (image -> bool)) (crop : image) : bool :=
    fold_left (fun filter_ok f => filter_ok && f crop) filters true.

Definition _crop_filter (self : FileListProcessor) (crop : image) : bool :=
    crop_filter (_setup_crop_filters self) crop.

End Filters.

(** ** TransformChain *)

(** The TensorFlow image ops the chain calls and this file does not
    define: a seed's Bernoulli draw (the test [uniform(seed) < 0.5] shared by
    both stateless flips) and the photometric ops. *)
Class ImageOps : Type := {
  mirror_cond : seed -> bool;
  per_image_standardization : image -> image;
  stateless_random_brightness : image -> Q -> seed -> image;
  stateless_random_saturation : image -> Q -> Q -> seed -> image;
  stateless_random_contrast : image -> Q -> Q -> seed -> image
}.

(** The photometric ops return a tensor of the shape they are given. *)
Class ShapePreserving (ops : ImageOps) : Prop := {
  standardization_shape : forall h w c img,
    Tensor.has_shape h w c img -> Tensor.has_shape h w c (per_image_standardization img);
  brightness_shape : forall h w c img d s,
    Tensor.has_shape h w c img ->
    Tensor.has_shape h w c (stateless_random_brightness img d s);
  saturation_shape : forall h w c img lo hi s,
    Tensor.has_shape h w c img ->
    Tensor.has_shape h w c (stateless_random_saturation img lo hi s);
  contrast_shape : forall h w c img lo hi s,
    Tensor.has_shape h w c img ->
    Tensor.has_shape h w c (stateless_random_contrast img lo hi s)
}.

Module Transforms.

  (** A transform takes the tensor and the crop's seed; it runs against the
      process-wide generator, which only [random_rot90] advances. *)
Definition transform : Type :=
    image -> seed -> global_generator -> image * global_generator.

Definition stateless (f : image -> seed -> image) : transform :=
    fun img s g => (f img s, g).

Definition replace_nans_by_zeros (sample : image) (_ : seed) : image :=
    Tensor.map_pixels (fun x => if F32.is_nan x then F32.zero else x) sample.

Section WithOps.

Context {ops : ImageOps}.

Definition stateless_random_flip_left_right (img : image) (s : seed) : image :=
      if mirror_cond s then Tensor.flip_left_right img else img.

Definition stateless_random_flip_up_down (img : image) (s : seed) : image :=
      if mirror_cond s then Tensor.flip_up_down img else img.

    (** [tf.image.rot90(img, tf.random.uniform(shape=[], minval=0, maxval=4,
        dtype=tf.int32))]: the seed argument is not used. *)
Definition random_rot90 : transform :=
      fun img _ g =>
        let '(raw, g') := take_draws g 1 in
        (Tensor.rot90 img (0 + hd 0 raw mod (4 - 0)), g').

Definition get_image_channels (self : FileListProcessor) (img : image) (_ : seed) : image :=
      Tensor.slice_channels 0 (Z.to_nat (single_image_raw_depth self)) img.

Definition img_standardize (img : image) (_ : seed) : image :=
      per_image_standardization img.

Definition no_op (crop : image) (_ : seed) : image := crop.

Definition when {A : Type} (b : bool) (x : A) : list A := if b then [x] else [].

Definition when_some {A B : Type} (o : option A) (f : A -> B) : list B :=
      match o with
      | Some a => [f a]
      | None => []
      end.

Definition nan_mode_is (self : FileListProcessor) (mode : string) : bool :=
      match manage_nan_values self with
      | Some m => String.eqb m mode
      | None => false
      end.

    (** [_setup_image_transforms]: the three things it stores. *)
Definition image_label_transforms (self : FileListProcessor) : list transform :=
      when (nan_mode_is self "zeros") (stateless replace_nans_by_zeros)
      ++ when (apply_random_flip_left_right self) (stateless stateless_random_flip_left_right)
      ++ when (apply_random_flip_up_down self) (stateless stateless_random_flip_up_down)
      ++ when (apply_random_rot90 self) random_rot90.

Definition image_pixels_transforms (self : FileListProcessor) : list transform :=
      when (negb (no_reference self)) (stateless (get_image_channels self))
      ++ when (apply_whitening self) (stateless img_standardize)
      ++ when_some (apply_random_brightness self)
           (fun d => stateless (fun img s => stateless_random_brightness img d s))
      ++ when_some (apply_random_saturation self)
           (fun x => stateless (fun img s =>
              stateless_random_saturation img (1 - x)%Q (1 + x)%Q s))
      ++ when_some (apply_random_contrast self)
           (fun x => stateless (fun img s =>
              stateless_random_contrast img (1 - x)%Q (1 + x)%Q s)).

Definition post_process_fn (self : FileListProcessor) : image -> seed -> image :=
      match crops_postprocess self with
      | Some f => f
      | None => no_op
      end.

    (** The two [for i in range(...)] loops of [image_transform]. *)
Definition apply_transforms (ts : list transform) (s : seed)
               (img : image) (g : global_generator) : image * global_generator :=
      fold_left (fun '(im, g0) (t : transform) => t im s g0) ts (img, g).

Definition reference_slice (self : FileListProcessor) (img : image) : image :=
      Tensor.slice_channels (Z.to_nat (single_image_raw_depth self))
                            (Z.to_nat (single_image_reference_depth self)) img.

    (** The tensor [image_transform] hands to [post_process_fn]. *)
Definition before_post_process (self : FileListProcessor) (s : seed)
               (input_image : image) (g : global_generator) : image * global_generator :=
      let '(stage_a, g1) := apply_transforms (image_label_transforms self) s input_image g in
      let reference_img := cast (out_dtype self) (reference_slice self stage_a) in
      let '(stage_b, g2) := apply_transforms (image_pixels_transforms self) s stage_a g1 in
      if negb (no_reference self)
      then (Tensor.concat_channels (cast (out_dtype self) stage_b) reference_img, g2)
      else (stage_b, g2).

    (** [image_transform]: one seed is drawn from [self.rng] for the crop. *)
Definition image_transform (self : FileListProcessor) (rng : philox)
               (g : global_generator) (input_image : image)
      : image * philox * global_generator :=
      let '(s, rng') := make_seeds rng in
      let '(transformed_image, g') := before_post_process self s input_image g in
      (post_process_fn self transformed_image s, rng', g').

    (** [_whiten_sample]: the name [single_image_channels] is bound in the
        first branch only. *)
Definition _whiten_sample (self : FileListProcessor) (sample : image) : result image :=
      if negb (no_reference self) then
        let single_image_channels :=
          Tensor.slice_channels 0 (Z.to_nat (single_image_raw_depth self)) sample in
        let reference_img := cast (out_dtype self) (reference_slice self sample) in
        let raw_sample := per_image_standardization single_image_channels in
        ok (Tensor.concat_channels (cast (out_dtype self) raw_sample) reference_img)
      else
        raise (UnboundLocalError "single_image_channels").

End WithOps.

End Transforms.

(** ** StreamAssembler *)

Module Stream.

Fixpoint mapM {A B : Type} (f : A -> result B) (l : list A) : result (list B) :=
    match l with
    | [] => ok []
    | a :: l' => b <- f a ;; bs <- mapM f l' ;; ok (b :: bs)
    end.

  (** [crops_dataset(image_filename)]: the per-image dataset
      [crops.filter(self._crop_filter)]. *)
Definition crops_dataset (self : FileListProcessor) (g : global_generator)
             (image_filename : string) : result (list image * global_generator) :=
    input_image <- image_loading_fn self image_filename ;;
    '(boxes_raw, g') <-
      Planner.prepare_crops_bbox self g (Tensor.height input_image)
                                 (Tensor.width input_image) ;;
    crops <- mapM (Planner.get_crop self input_image) boxes_raw ;;
    ok (filter (Filters._crop_filter self) crops, g').

  (** The per-image datasets of the files, opened in input order. *)
Fixpoint generate_all (self : FileListProcessor) (g : global_generator)
           (files : list string) : result (list (list image) * global_generator) :=
    match files with
    | [] => ok ([], g)
    | f :: files' =>
        '(crops, g1) <- crops_dataset self g f ;;
        '(rest, g2) <- generate_all self g1 files' ;;
        ok (crops :: rest, g2)
    end.

  (** [Dataset.interleave(cycle_length, block_length=1)] in its
      deterministic order.  [slots] is the cycle, rotated so that the current
      slot is its head; [None] is a slot with no open element.  A slot found
      empty once the input is exhausted is never refilled, and is dropped
      from the cycle. *)
Fixpoint interleave_loop {A : Type} (fuel : nat) (slots : list (option (list A)))
           (inputs : list (list A)) : list A :=
    match fuel with
    | O => []
    | S fuel' =>
        match slots with
        | [] => []
        | Some (x :: rest) :: others =>
            x :: interleave_loop fuel' (others ++ [Some rest]) inputs
        | Some [] :: others =>
            match inputs with
            | [] => interleave_loop fuel' others inputs
            | _ :: _ => interleave_loop fuel' (others ++ [None]) inputs
            end
        | None :: others =>
            match inputs with
            | [] => interleave_loop fuel' others inputs
            | d :: inputs' => interleave_loop fuel' (Some d :: others) inputs'
            end
        end
    end.

Definition total_length {A : Type} (ls : list (list A)) : nat :=
    fold_right (fun l n => (length l + n)%nat) 0%nat ls.

Definition interleave {A : Type} (cycle_length : nat) (inputs : list (list A)) : list A :=
    interleave_loop (total_length inputs + 2 * length inputs + cycle_length + 1)
                    (repeat None cycle_length) inputs.

  (** [Dataset.batch(n, drop_remainder=True)]. *)
Fixpoint batch_loop {A : Type} (fuel n : nat) (l : list A) : list (list A) :=
    match fuel with
    | O => []
    | S fuel' =>
        if (n <=? length l)%nat
        then firstn n l :: batch_loop fuel' n (skipn n l)
        else []
    end.

Definition batch {A : Type} (n : nat) (l : list A) : list (list A) :=
    match n with
    | O => []
    | S _ => batch_loop (length l) n l
    end.

Section WithOps.

Context {ops : ImageOps}.

    (** [Dataset.map(self._image_transform)], element after element. *)
Fixpoint map_transform (self : FileListProcessor) (rng : philox)
             (g : global_generator) (crops : list image) : list image :=
      match crops with
      | [] => []
      | c :: crops' =>
          let '(t, rng', g') := Transforms.image_transform self rng g c in
          t :: map_transform self rng' g' crops'
      end.

    (** One run of the pipeline built by [_create_data_pipeline] in its
        cropping branch, for a finite epoch count and without shuffling of
        the file list: the batches, in order. *)
Definition run (self : FileListProcessor) (g : global_generator)
      : result (list (list image)) :=
      let files := concat (repeat (filelist self) (Z.to_nat (nbEpoch self))) in
      '(per_file, g') <- generate_all self g files ;;
      let crops := interleave (Z.to_nat (num_reader_threads self)) per_file in
      let transformed := map_transform self (from_seed (master_seed self)) g' crops in
      ok (batch (Z.to_nat (batch_size self)) transformed).

End WithOps.

End Stream.

(** ** Construction *)

Module F64Ops.

Definition one : spec_float := F64.of_dyadic 1 0.
Definition of_Z (z : Z) : spec_float := F64.of_dyadic z 0.
Definition mul : spec_float -> spec_float -> spec_float := SFmul F64.prec F64.emax.
Definition div : spec_float -> spec_float -> spec_float := SFdiv F64.prec F64.emax.

  (** Python's [int(x)] on a float. *)
Definition py_int (x : spec_float) : result Z :=
    match x with
    | S754_nan => raise (ValueError "cannot convert float NaN to integer")
    | S754_infinity _ => raise (OverflowError "cannot convert float infinity to integer")
    | _ => ok (float_trunc x)
    end.

  (** Python's [float(a) / float(b)]. *)
Definition py_div (a b : spec_float) : result spec_float :=
    match b with
    | S754_zero _ => raise (ZeroDivisionError "float division by zero")
    | _ => ok (div a b)
    end.

End F64Ops.

(** What [filelist_reference_data] may be: [None], a list, anything else. *)
Inductive reference_data : Type :=
| RefLastChannel
| RefFiles (files : list string)
| RefAbsent.

(** What [additionnal_filters] may be: [None], a list, anything else. *)
Inductive filters_arg : Type :=
| FiltersDefault
| FiltersList (fs : list (image -> bool))
| FiltersNotAList.

(** What [use_alternative_imread] may be: [None], a backend name, anything
    else ([False] is the default). *)
Inductive imread_choice : Type :=
| ImreadNone
| ImreadName (name : string)
| ImreadOther.

Module Args.

Record t : Type := {
    filelist_raw_data : list string;
    filelist_reference_data : reference_data;
    nbEpoch : Z;
    shuffle_samples : bool;
    patch_ratio_vs_input : spec_float;
    max_patches_per_image : Z;
    image_area_coverage_factor : spec_float;
    num_reader_threads : Z;
    apply_random_flip_left_right : bool;
    apply_random_flip_up_down : bool;
    apply_random_rot90 : bool;
    apply_random_brightness : option Q;
    apply_random_saturation : option Q;
    apply_random_contrast : option Q;
    apply_whitening : bool;
    batch_size : Z;
    use_alternative_imread : imread_choice;
    balance_classes_distribution : bool;
    classes_entropy_threshold : Q;
    field_of_view : Z;
    manage_nan_values : option string;
    additionnal_filters : filters_arg;
    crops_postprocess : option (image -> seed -> image);
    dtype : dtype;
    seed : Z
  }.

End Args.

(** The files as the constructor sees them: the shape of the array a probe
    read decodes ([None] when the file cannot be read), and the composite a
    loader builds for a descriptor of the file list. *)
Record file_system : Type := {
  imread_shape : string -> option (list Z);
  load_composite : string -> result image
}.

Module Init.

Definition filenames_separator : string := "###".

Definition index {A : Type} (l : list A) (i : nat) (what : string) : result A :=
    match nth_error l i with
    | Some a => ok a
    | None => raise (IndexError what)
    end.

Definition is_backend (c : imread_choice) (name : string) : bool :=
    match c with
    | ImreadName n => String.eqb n name
    | _ => false
    end.

  (** The probe read of the first raw file, by any of the three readers. *)
Definition imread_raw0 (fs : file_system) (a : Args.t) : result (list Z) :=
    path <- index (Args.filelist_raw_data a) 0 "list index out of range" ;;
    match imread_shape fs path with
    | Some shape => ok shape
    | None => raise (ValueError "Could no read file")
    end.

  (** [_create_dataset_filenames]: the descriptor list. *)
Definition datasetFiles (a : Args.t) : list string :=
    match Args.filelist_reference_data a with
    | RefFiles refs =>
        map (fun '(string1, string2) => ("" ++ string1 ++ filenames_separator ++ string2)%string)
            (combine (Args.filelist_raw_data a) refs)
    | _ => Args.filelist_raw_data a
    end.

  (** [_setup_load_raw_images_from_filenames]: whether [self.image_loading_fn]
      is set on return ([Some]), left unset ([None]), or the setup raises. *)
Definition _setup_load_raw_images_from_filenames (fs : file_system) (a : Args.t)
    : result (option (string -> result image)) :=
    let c := Args.use_alternative_imread a in
    let known := is_backend c "opencv" || is_backend c "gdal" || is_backend c "rasterio" in
    match Args.filelist_reference_data a with
    | RefFiles _ =>
        match c with
        | ImreadNone => ok (Some (load_composite fs))
        | _ => if known then ok (Some (load_composite fs)) else ok None
        end
    | _ =>
        if known then ok (Some (load_composite fs))
        else raise (ValueError
          "Neither OpenCV nor GDAL selected to read data and ground truth from the same image")
    end.

  (** The depths and [fullframe_ref_shape] read off the probe images. *)
Definition probe_depths (fs : file_system) (a : Args.t) (raw0 : list Z)
    : result (bool * Z * Z * option (list Z)) :=
    match Args.filelist_reference_data a with
    | RefLastChannel =>
        d <- index raw0 2 "tuple index out of range" ;;
        ok (false, d - 1, 1, Some raw0)
    | RefFiles refs =>
        ref_path <- index refs 0 "list index out of range" ;;
        match imread_shape fs ref_path with
        | None => raise (AttributeError "shape")
        | Some ref0 =>
            h <- index raw0 0 "tuple index out of range" ;;
            rh <- index ref0 0 "tuple index out of range" ;;
            differ <-
              (if negb (h =? rh) then ok true
               else w <- index raw0 1 "tuple index out of range" ;;
                    rw <- index ref0 1 "tuple index out of range" ;;
                    ok (negb (w =? rw))) ;;
            if (differ : bool) then
              raise (ValueError
                "FileListProcessor_input::__init__ Error, first input files do not have the same pixel size")
            else
              raw_depth <-
                (if (2 <? length raw0)%nat then index raw0 2 "tuple index out of range"
                 else if (length raw0 =? 2)%nat then ok 1
                 else raise (ValueError "input image shape not supported")) ;;
              let fullframe := removelast raw0 ++ [raw_depth + 1] in
              let ref_depth := if (2 <? length ref0)%nat then nth 2 ref0 1 else 1 in
              ok (false, raw_depth, ref_depth, Some fullframe)
        end
    | RefAbsent =>
        d <- index raw0 2 "tuple index out of range" ;;
        ok (true, d, 0, None)
    end.

  (** What the constructor derives from the probe images and the patch
    arguments (the statements between the two groups of checks). *)
Record geometry : Type := {
  geo_no_reference : bool;
  geo_raw_depth : Z;
  geo_reference_depth : Z;
  geo_fullframe_ref_shape : option (list Z);
  geo_radius_of_view : Z;
  geo_patch_ratio_vs_input : spec_float;
  geo_max_patches_per_image : Z;
  geo_patchSize : Z;
  geo_full_frame_mode : bool
}.

Definition probe_and_geometry (fs : file_system) (a : Args.t) : result geometry :=
  raw0 <- imread_raw0 fs a ;;
  shape0 <- index raw0 0 "tuple index out of range" ;;
  shape1 <- index raw0 1 "tuple index out of range" ;;
  '(no_ref, raw_depth, ref_depth, fullframe_ref_shape) <- probe_depths fs a raw0 ;;
  _ <- F64Ops.py_div (F64Ops.of_Z shape0) (F64Ops.of_Z shape1) ;;
  let fov := Args.field_of_view a in
  let radius := if 0 <? fov then (fov - 1) / 2 else 0 in
  let ratio := Args.patch_ratio_vs_input a in
  let forced := SFeqb ratio F64Ops.one || SFltb ratio (S754_zero false) in
  let self_ratio := if forced then F64Ops.one else ratio in
  let self_max := if forced then 1 else Args.max_patches_per_image a in
  '(patch_size, self_ratio) <-
    (if SFltb F64Ops.one ratio
     then r <- F64Ops.py_div ratio (F64Ops.of_Z shape0) ;;
          (* the patch size is the argument itself, a whole number *)
          ok (float_trunc ratio, r)
     else ps <- F64Ops.py_int (F64Ops.mul (F64Ops.of_Z shape0) ratio) ;;
          ok (ps, self_ratio)) ;;
  ok {| geo_no_reference := no_ref;
        geo_raw_depth := raw_depth;
        geo_reference_depth := ref_depth;
        geo_fullframe_ref_shape := fullframe_ref_shape;
        geo_radius_of_view := radius;
        geo_patch_ratio_vs_input := self_ratio;
        geo_max_patches_per_image := self_max;
        geo_patchSize := patch_size;
        geo_full_frame_mode :=
          SFeqb self_ratio (F64Ops.of_Z self_max) && (self_max =? 1) |}.

(** [_create_data_pipeline], as far as it can raise: the full-frame
    branch names a method the class does not define, and the cropping branch
    traces [_generate_crops], which reads [self.image_loading_fn]. *)
Definition _create_data_pipeline (full_frame : bool)
           (loading_fn : option (string -> result image))
  : result (string -> result image) :=
  if full_frame then raise (AttributeError "_load_raw_images_from_filenames")
  else
    match loading_fn with
    | None => raise (AttributeError "image_loading_fn")
    | Some f => ok f
    end.

(** [__init__]. *)
Definition __init__ (fs : file_system) (a : Args.t) : result FileListProcessor :=
  let filters :=
    match Args.additionnal_filters a with
    | FiltersDefault => FiltersList []
    | x => x
    end in
  if F64.le_zero (Args.image_area_coverage_factor a) then
    raise (ValueError
      "Error when constructing DataProvider: image_area_coverage_factor must be above 0")
  else
  match filters with
  | FiltersDefault | FiltersNotAList =>
      raise (ValueError
        "Error when constructing DataProvider: additionnal_filters must be a list of functions")
  | FiltersList filters =>
      geo <- probe_and_geometry fs a ;;
      let fov := Args.field_of_view a in
      if (fov mod 2 =? 0) && negb (fov =? 0) then
        raise (ValueError "field_of_view must be odd or 0")
      else
        _ <- (if geo_full_frame_mode geo then
                match geo_fullframe_ref_shape geo with
                | Some shape => ok shape
                | None => raise (AttributeError "fullframe_ref_shape")
                end
              else ok [geo_patchSize geo; geo_patchSize geo;
                       geo_raw_depth geo + geo_reference_depth geo]) ;;
        loading_fn <- _setup_load_raw_images_from_filenames fs a ;;
        (* _setup_image_transforms and _setup_crop_filters do not raise *)
        image_loading_fn <- _create_data_pipeline (geo_full_frame_mode geo) loading_fn ;;
        ok {| filelist := datasetFiles a;
              nbEpoch := Args.nbEpoch a;
              shuffle_samples := Args.shuffle_samples a;
              patch_ratio_vs_input := geo_patch_ratio_vs_input geo;
              max_patches_per_image := geo_max_patches_per_image geo;
              image_area_coverage_factor := Args.image_area_coverage_factor a;
              num_reader_threads := Args.num_reader_threads a;
              apply_random_flip_left_right := Args.apply_random_flip_left_right a;
              apply_random_flip_up_down := Args.apply_random_flip_up_down a;
              apply_random_rot90 := Args.apply_random_rot90 a;
              apply_random_brightness := Args.apply_random_brightness a;
              apply_random_saturation := Args.apply_random_saturation a;
              apply_random_contrast := Args.apply_random_contrast a;
              apply_whitening := Args.apply_whitening a;
              batch_size := Args.batch_size a;
              balance_classes_distribution := Args.balance_classes_distribution a;
              classes_entropy_threshold := Args.classes_entropy_threshold a;
              field_of_view := fov;
              manage_nan_values := Args.manage_nan_values a;
              additionnal_filters := filters;
              crops_postprocess := Args.crops_postprocess a;
              out_dtype := Args.dtype a;
              master_seed := Args.seed a;
              no_reference := geo_no_reference geo;
              single_image_raw_depth := geo_raw_depth geo;
              single_image_reference_depth := geo_reference_depth geo;
              radius_of_view := geo_radius_of_view geo;
              patchSize := geo_patchSize geo;
              full_frame_mode := geo_full_frame_mode geo;
              image_loading_fn := image_loading_fn |}
  end.

End Init.

(** ** The count of section 4.2 of the specification *)

Module SpecText.

Definition clamp (x lo hi : Z) : Z := Z.max lo (Z.min x hi).

  (** Rounding to the nearest integer. *)
Definition round (q : Q) : Z := Qfloor (q + (1 # 2))%Q.

  (** [clamp(round(coverage_factor * H * W / patchSize^2), 1,
      max_patches_per_image)], as the specification words it. *)
Definition patch_count (coverage_factor : Q) (H W patchSize max_patches : Z) : Z :=
    clamp (round (coverage_factor * inject_Z (H * W)
                  / inject_Z (patchSize * patchSize))%Q)
          1 max_patches.

End SpecText.

(** ** Concrete pipelines *)

Module Fixtures.

Definition px (z : Z) : pixel := F32.of_Z z.

Definition constant_image (h w c : nat) (v : pixel) : image :=
    repeat (repeat (repeat v c) w) h.

  (** A file system whose every file decodes to a 64 x 64 image with
      three raw channels and one reference channel. *)
Definition fs64 : file_system :=
    {| imread_shape := fun _ => Some [64; 64; 4];
       load_composite := fun _ => ok (constant_image 64 64 4 (px 0)) |}.

  (** The defaults of [__init__] with the OpenCV reader, one epoch and
    batches of one crop; the arguments the examples vary are parameters. *)
Definition args_with (reference : reference_data) (shuffle : bool)
           (ratio coverage : spec_float) (fov : Z) (nan : option string)
           (filters : filters_arg) (rot90 balance : bool) : Args.t :=
  {| Args.filelist_raw_data := ["a.tif"; "b.tif"];
     Args.filelist_reference_data := reference;
     Args.nbEpoch := 1;
     Args.shuffle_samples := shuffle;
     Args.patch_ratio_vs_input := ratio;
     Args.max_patches_per_image := 10;
     Args.image_area_coverage_factor := coverage;
     Args.num_reader_threads := 4;
     Args.apply_random_flip_left_right := false;
     Args.apply_random_flip_up_down := false;
     Args.apply_random_rot90 := rot90;
     Args.apply_random_brightness := None;
     Args.apply_random_saturation := None;
     Args.apply_random_contrast := None;
     Args.apply_whitening := false;
     Args.batch_size := 1;
     Args.use_alternative_imread := ImreadName "opencv";
     Args.balance_classes_distribution := balance;
     Args.classes_entropy_threshold := (6 # 10)%Q;
     Args.field_of_view := fov;
     Args.manage_nan_values := nan;
     Args.additionnal_filters := filters;
     Args.crops_postprocess := None;
     Args.dtype := float32;
     Args.seed := 42 |}.

(** Patches of 48 pixels (ratio 0.75 of 64) sampled at random with the
    coverage factor [coverage]. *)
Definition random_args (coverage : spec_float) : Args.t :=
  args_with RefLastChannel true (F64.of_dyadic 3 (-2)) coverage 0 None FiltersDefault
            false false.

(** Patches of 16 pixels (ratio 0.25 of 64) on the regular grid. *)
Definition grid_args : Args.t :=
  args_with RefLastChannel false (F64.of_dyadic 1 (-2)) (F64.of_dyadic 2 0) 0 None
            FiltersDefault false false.


(** The whole image as one crop: a patch ratio of 1. *)
Definition full_frame_args : Args.t :=
  args_with RefLastChannel false (F64.of_dyadic 1 0) (F64.of_dyadic 2 0) 0 None
            FiltersDefault false false.

(** Raw and reference images in separate files. *)
Definition pair_args (fov : Z) : Args.t :=
  args_with (RefFiles ["a_ref.png"; "b_ref.png"]) false (F64.of_dyadic 1 (-2))
            (F64.of_dyadic 2 0) fov None FiltersDefault false false.

(** A file system whose raw files are 64 x 64 x 3 and whose reference
    files are 32 x 32. *)
Definition fs_mismatch : file_system :=
  {| imread_shape := fun path =>
       if String.eqb path "a.tif" || String.eqb path "b.tif"
       then Some [64; 64; 3] else Some [32; 32];
     load_composite := fun _ => ok (constant_image 64 64 4 (px 0)) |}.

(** A 4 x 4 composite of one raw channel, holding [4 r + c] at row [r] and
    column [c], and one reference channel of zeros. *)
Definition ramp_image : image :=
  map (fun r => map (fun c => [px (4 * r + c); px 0]) [0; 1; 2; 3]) [0; 1; 2; 3].

Definition fs4 : file_system :=
  {| imread_shape := fun _ => Some [4; 4; 2];
     load_composite := fun _ => ok ramp_image |}.

(** Evaluation settings: no shuffling, the regular grid of 2 x 2 patches,
    and the random quarter turn as the only augmentation. *)
Definition rot90_args : Args.t :=
  args_with RefLastChannel false (F64.of_dyadic 1 (-1)) (F64.of_dyadic 2 0) 0 None
            FiltersDefault true false.

Definition one_generator : global_generator :=
  {| draws := fun _ => 1; position := 0 |}.

(** An instance given field by field, for the methods that can be called
    on states no construction reaches. *)
Definition bare_self (no_ref full_frame whitening flip_lr rot90 : bool)
           (raw_depth ref_depth : Z) (nan : option string)
           (brightness : option Q) (dt : dtype) : FileListProcessor :=
  {| filelist := [];
     nbEpoch := 0;
     shuffle_samples := false;
     patch_ratio_vs_input := S754_zero false;
     max_patches_per_image := 0;
     image_area_coverage_factor := S754_zero false;
     num_reader_threads := 0;
     apply_random_flip_left_right := flip_lr;
     apply_random_flip_up_down := false;
     apply_random_rot90 := rot90;
     apply_random_brightness := brightness;
     apply_random_saturation := None;
     apply_random_contrast := None;
     apply_whitening := whitening;
     batch_size := 0;
     balance_classes_distribution := false;
     classes_entropy_threshold := 0%Q;
     field_of_view := 0;
     manage_nan_values := nan;
     additionnal_filters := [];
     crops_postprocess := None;
     out_dtype := dt;
     master_seed := 0;
     no_reference := no_ref;
     single_image_raw_depth := raw_depth;
     single_image_reference_depth := ref_depth;
     radius_of_view := 0;
     patchSize := 0;
     full_frame_mode := full_frame;
     image_loading_fn := fun _ => raise (ValueError "no loader") |}.

(** An instance on which nothing is configured. *)
Definition blank_self : FileListProcessor :=
  bare_self false false false false false 0 0 None None float32.

(** Image ops that flip on odd seeds and leave the pixel values alone. *)
Definition plain_ops : ImageOps :=
  {| mirror_cond := fun s => Nat.odd (counter s);
     per_image_standardization := fun img => img;
     stateless_random_brightness := fun img _ _ => img;
     stateless_random_saturation := fun img _ _ _ => img;
     stateless_random_contrast := fun img _ _ _ => img |}.

(** A 2 x 2 composite of two raw channels and one reference channel; the
    pixel at row [r], column [c] holds [10 r + c], [20 r + 2 c] and the
    label [r + c]. *)
Definition small_composite : image :=
  [ [ [px 0; px 0; px 0];   [px 1; px 2; px 1] ];
    [ [px 10; px 20; px 1]; [px 11; px 22; px 2] ] ].


(** The instance a successful construction returns. *)
Definition constructed (r : result FileListProcessor) : FileListProcessor :=
  match r with
  | inr self => self
  | inl _ => blank_self
  end.

Definition random_self (coverage : spec_float) : FileListProcessor :=
  constructed (Init.__init__ fs64 (random_args coverage)).

Definition grid_self : FileListProcessor :=
  constructed (Init.__init__ fs64 grid_args).

Definition rot90_self : FileListProcessor :=
  constructed (Init.__init__ fs4 rot90_args).


Definition zero_generator : global_generator :=
    {| draws := fun _ => 0; position := 0 |}.

End Fixtures.

(** ** More concrete pipelines *)

Module Cases.

(** The regular grid over the 4 x 4 files, with no augmentation. *)
Definition plain_grid_args : Args.t :=
  Fixtures.args_with RefLastChannel false (F64.of_dyadic 1 (-1)) (F64.of_dyadic 2 0) 0
                     None FiltersDefault false false.

Definition plain_grid_self : FileListProcessor :=
  Fixtures.constructed (Init.__init__ Fixtures.fs4 plain_grid_args).

End Cases.

(** ** Bookkeeping for the interleave loop *)

Module Cycle.

Definition slot_items {A : Type} (slot : option (list A)) : list A :=
  match slot with
  | Some l => l
  | None => []
  end.

Definition is_open {A : Type} (slot : option (list A)) : bool :=
  match slot with
  | Some _ => true
  | None => false
  end.

(** What the loop has still to produce: the open elements, then the input. *)
Definition pending {A : Type} (slots : list (option (list A))) (inputs : list (list A))
  : list A :=
  flat_map slot_items slots ++ concat inputs.

(** A bound on the number of steps left. *)
Definition steps_left {A : Type} (slots : list (option (list A))) (inputs : list (list A))
  : nat :=
  (length (pending slots inputs) + 2 * length inputs
   + length (filter is_open slots) + length slots)%nat.

End Cycle.

Module CaseRuns.


(** The crops of the first file of the 64 x 64 grid case. *)
Definition grid_crops : list image * global_generator :=
  match Stream.crops_dataset Fixtures.grid_self Fixtures.zero_generator "a.tif" with
  | inr r => r
  | inl _ => ([], Fixtures.zero_generator)
  end.

(** The batches of the quarter-turn case under the plain ops. *)
Definition rot90_batches : list (list image) :=
  match Stream.run (ops := Fixtures.plain_ops) Fixtures.rot90_self
                   Fixtures.zero_generator with
  | inr batches => batches
  | inl _ => []
  end.

End CaseRuns.

(** ** Time series read from CSV files *)

Module TimeSeries.

(** [Dataset.window(size, shift, drop_remainder=True)]: the windows start
    every [shift] elements and a window that cannot be filled is dropped,
    with all that would follow it. *)
Fixpoint window_loop {A : Type} (fuel size shift : nat) (l : list A) : list (list A) :=
  match fuel with
  | O => []
  | S fuel' =>
      if (size <=? length l)%nat
      then firstn size l :: window_loop fuel' size shift (skipn shift l)
      else []
  end.

Definition window {A : Type} (size shift : nat) (l : list A) : result (list (list A)) :=
  if (size =? 0)%nat then raise (InvalidArgumentError "Window size must be greater than zero")
  else if (shift =? 0)%nat
    then raise (InvalidArgumentError "Window shift must be greater than zero")
  else ok (window_loop (length l) size shift l).

(** The samples [FileListProcessor_csv_time_series] takes from one file,
    before decoding:
    [TextLineDataset(file).skip(1).window(size=temporal_series_length,
    shift=windowing_shift, drop_remainder=True)], each window then batched by
    [temporal_series_length]. *)
Definition file_samples (temporal_series_length windowing_shift : nat)
           (lines : list string) : result (list (list string)) :=
  windows <- window temporal_series_length windowing_shift (skipn 1 lines) ;;
  ok (flat_map (Stream.batch temporal_series_length) windows).

(** The number of full windows over [n] data lines. *)
Definition sample_count (temporal_series_length windowing_shift n : nat) : nat :=
  if (temporal_series_length <=? n)%nat
  then S ((n - temporal_series_length) / windowing_shift)
  else O.

End TimeSeries.

(** ** File names *)

Module PyBytes.

Definition backslash : Ascii.ascii := Ascii.ascii_of_nat 92.
Definition single_quote : Ascii.ascii := Ascii.ascii_of_nat 39.
Definition double_quote : Ascii.ascii := Ascii.ascii_of_nat 34.

Definition hexdigits : list Ascii.ascii := list_ascii_of_string "0123456789abcdef".

Definition hex_digit (n : N) : Ascii.ascii := nth (N.to_nat n) hexdigits "0"%char.

Definition contains (c : Ascii.ascii) (bytes : list Ascii.ascii) : bool :=
  existsb (Ascii.eqb c) bytes.

(** One byte as [bytes.__repr__] writes it between the quotes. *)
Definition escape (quote c : Ascii.ascii) : list Ascii.ascii :=
  let n := Ascii.N_of_ascii c in
  if Ascii.eqb c quote || Ascii.eqb c backslash then [backslash; c]
  else if (n =? 9)%N then [backslash; "t"%char]
  else if (n =? 10)%N then [backslash; "n"%char]
  else if (n =? 13)%N then [backslash; "r"%char]
  else if (n <? 32)%N || (127 <=? n)%N
    then [backslash; "x"%char; hex_digit (N.shiftr (N.land n 240) 4); hex_digit (N.land n 15)]
  else [c].

(** [str(b)] of a bytes object: the letter b, then the escaped bytes
    between single quotes, or between double quotes when the bytes hold a
    single quote and no double quote. *)
Definition repr (bytes : list Ascii.ascii) : list Ascii.ascii :=
  let quote := if contains single_quote bytes && negb (contains double_quote bytes)
               then double_quote else single_quote in
  "b"%char :: quote :: flat_map (escape quote) bytes ++ [quote].

(** The slice [s[2:-1]]. *)
Definition slice_2_to_last {A : Type} (s : list A) : list A := removelast (skipn 2 s).

(** The bytes [repr] writes as they are, with one kind of quote at most. *)
Definition printable (c : Ascii.ascii) : bool :=
  (32 <=? Ascii.N_of_ascii c)%N && (Ascii.N_of_ascii c <? 127)%N
  && negb (Ascii.eqb c backslash).

Definition plain (bytes : list Ascii.ascii) : bool :=
  forallb printable bytes
  && negb (contains single_quote bytes && contains double_quote bytes).

End PyBytes.

(** [the_ugly_string_manager] on the bytes of a string tensor (or on the
    UTF-8 bytes of a [str]); NFC normalization leaves the ASCII text of a
    [repr] as it is. *)
Definition the_ugly_string_manager (filename : string) : result string :=
  let filename_str := PyBytes.repr (list_ascii_of_string filename) in
  match filename_str with
  | [] => raise (IndexError "string index out of range")
  | c :: _ =>
      if Ascii.eqb c "b"%char
      then ok (string_of_list_ascii (PyBytes.slice_2_to_last filename_str))
      else ok (string_of_list_ascii filename_str)
  end.

Module Descriptor.

(** [tf.strings.split(s, sep)] for a non-empty [sep]: the pieces between
    the occurrences of [sep], found from the left, empty pieces included.
    [skip] counts the characters of a separator still to pass over. *)
Fixpoint split_loop (sep : string) (skip : nat) (current s : string) : list string :=
  match s with
  | EmptyString => [current]
  | String c rest =>
      match skip with
      | S skip' => split_loop sep skip' current rest
      | O =>
          if String.prefix sep s
          then current :: split_loop sep (String.length sep - 1) EmptyString rest
          else split_loop sep O (current ++ String c EmptyString)%string rest
      end
  end.

Definition strings_split (s sep : string) : list string :=
  split_loop sep 0 EmptyString s.

(** The first statements of every [load_from_*] of
    [_setup_load_raw_ref_images_from_separate_files]. *)
Definition split_filenames (raw_ref_img_filenames : string) : result (string * string) :=
  let values := strings_split raw_ref_img_filenames Init.filenames_separator in
  match nth_error values 0, nth_error values 1 with
  | Some raw_img_filename, Some ref_img_filename =>
      ok (raw_img_filename, ref_img_filename)
  | _, _ => raise (InvalidArgumentError "slice index out of bounds")
  end.

Fixpoint hash_free (s : string) : bool :=
  match s with
  | EmptyString => true
  | String c rest => negb (Ascii.eqb c "#"%char) && hash_free rest
  end.

End Descriptor.

(** * Properties *)

(** ** Machine numbers and library ops *)

Lemma wrap32_small (z : Z) :
  Int32.min_signed <= z <= Int32.max_signed -> Int32.wrap32 z = z.
Proof.
  unfold Int32.wrap32, Int32.min_signed, Int32.max_signed. intros Hz.
  rewrite Z.mod_small; lia.
Qed.

Lemma take_draws_length (g : global_generator) (n : nat) :
  length (fst (take_draws g n)) = n.
Proof.
  unfold take_draws; simpl. now rewrite length_map, length_seq.
Qed.

Lemma random_uniform_int_inv (g g' : global_generator) (n lo hi : Z) (l : list Z) :
  random_uniform_int g n lo hi = inr (l, g') ->
  Z.of_nat (length l) = n /\ Forall (fun v => lo <= v < hi) l.
Proof.
  unfold random_uniform_int.
  destruct (n <? 0) eqn:Hneg; [discriminate|].
  destruct (n =? 0) eqn:Hz.
  - intros H; inversion H; subst. apply Z.eqb_eq in Hz. subst. split; [reflexivity|constructor].
  - destruct (lo <? hi) eqn:Hlt; [|discriminate].
    apply Z.ltb_lt in Hlt. apply Z.ltb_ge in Hneg.
    unfold take_draws. intros H; inversion H; subst; clear H. split.
    + rewrite !length_map, length_seq. lia.
    + apply Forall_forall. intros v Hv.
      apply in_map_iff in Hv as [r [<- _]].
      pose proof (Z.mod_pos_bound r (hi - lo)). lia.
Qed.

Lemma random_uniform_int_total (g : global_generator) (n lo hi : Z) :
  0 <= n -> (0 < n -> lo < hi) ->
  exists l g', random_uniform_int g n lo hi = inr (l, g').
Proof.
  intros Hn Hr. unfold random_uniform_int.
  destruct (n <? 0) eqn:Hneg; [apply Z.ltb_lt in Hneg; lia|].
  destruct (n =? 0) eqn:Hz; [eauto|].
  apply Z.eqb_neq in Hz.
  destruct (lo <? hi) eqn:Hlt; [|apply Z.ltb_ge in Hlt; lia].
  unfold take_draws. eauto.
Qed.

Lemma tf_range_from_zero (limit delta : Z) (l : list Z) :
  0 <= limit ->
  tf_range 0 limit delta = inr l ->
  Forall (fun v => 0 <= v < limit) l.
Proof.
  intros Hlim. unfold tf_range.
  destruct (delta =? 0) eqn:Hd0; [discriminate|]. apply Z.eqb_neq in Hd0.
  destruct (0 <? delta) eqn:Hpos.
  - apply Z.ltb_lt in Hpos.
    destruct (0 <=? limit); [|discriminate].
    intros H; inversion H; subst; clear H.
    apply Forall_forall. intros v Hv.
    apply in_map_iff in Hv as [i [<- Hi]]. apply in_seq in Hi.
    assert (Hq : 0 <= (limit - 0 + delta - 1) / delta) by (apply Z.div_pos; lia).
    assert (Hi' : Z.of_nat i + 1 <= (limit - 0 + delta - 1) / delta) by lia.
    pose proof (Z.mul_div_le (limit - 0 + delta - 1) delta Hpos).
    nia.
  - apply Z.ltb_ge in Hpos.
    destruct (limit <=? 0) eqn:Hle; [|discriminate]. apply Z.leb_le in Hle.
    assert (limit = 0) by lia. subst limit.
    replace ((0 - 0 - delta - 1) / - delta) with 0.
    + intros H; inversion H; subst. constructor.
    + symmetry. apply Z.div_small. lia.
Qed.

(** ** SampleGeometryPlanner *)

Lemma crop_in_bounds_succeeds (img : image) (top left ps : Z) :
  0 < ps -> 0 <= top -> 0 <= left ->
  left + ps <= Tensor.width img -> top + ps <= Tensor.height img ->
  exists crop, Tensor.crop_to_bounding_box img top left ps ps = inr crop.
Proof.
  intros Hps Ht Hl Hw Hh. unfold Tensor.crop_to_bounding_box.
  destruct (top <? 0) eqn:E1; [apply Z.ltb_lt in E1; lia|].
  destruct (left <? 0) eqn:E2; [apply Z.ltb_lt in E2; lia|].
  destruct (ps <=? 0) eqn:E3; [apply Z.leb_le in E3; lia|].
  destruct (Tensor.width img <? ps + left) eqn:E4; [apply Z.ltb_lt in E4; lia|].
  destruct (Tensor.height img <? ps + top) eqn:E5; [apply Z.ltb_lt in E5; lia|].
  eexists; reflexivity.
Qed.

(** C4.  Whatever the sampling mode, when the patch fits in the image
    every box the planner returns has its corner in
    [0, H - patchSize] x [0, W - patchSize], and cropping an image of that
    size at the box succeeds. *)
Theorem boxes_inside_image (self : FileListProcessor) (g g' : global_generator)
        (H W : Z) (boxes : list (Z * Z)) :
  0 < patchSize self ->
  patchSize self <= H <= Int32.max_signed ->
  patchSize self <= W <= Int32.max_signed ->
  Planner.prepare_crops_bbox self g H W = inr (boxes, g') ->
  Forall (fun box =>
            (0 <= fst box <= H - patchSize self /\
             0 <= snd box <= W - patchSize self) /\
            forall img, Tensor.height img = H -> Tensor.width img = W ->
                        exists crop, Planner.get_crop self img box = inr crop)
         boxes.
Proof.
  intros Hps HH HW Hrun.
  assert (Hcoords : Forall (fun box => 0 <= fst box < H - patchSize self /\
                                       0 <= snd box < W - patchSize self) boxes).
  { unfold Planner.prepare_crops_bbox in Hrun.
    rewrite !wrap32_small in Hrun
      by (unfold Int32.min_signed, Int32.max_signed in *; lia).
    destruct (shuffle_samples self).
    - destruct (random_uniform_int g _ 0 (H - patchSize self))
        as [e|[tops g1]] eqn:Ht; [discriminate|].
      cbn [bind] in Hrun.
      destruct (random_uniform_int g1 _ 0 (W - patchSize self))
        as [e|[lefts g2]] eqn:Hl; [discriminate|].
      cbn [bind] in Hrun. inversion Hrun; subst; clear Hrun.
      apply random_uniform_int_inv in Ht as [_ Ht].
      apply random_uniform_int_inv in Hl as [_ Hl].
      rewrite Forall_forall in *. intros [t l] Hin. simpl.
      split; [apply Ht; eapply in_combine_l; eauto
             |apply Hl; eapply in_combine_r; eauto].
    - destruct (tf_range 0 (H - patchSize self) _) as [e|tops] eqn:Ht; [discriminate|].
      cbn [bind] in Hrun.
      destruct (tf_range 0 (W - patchSize self) _) as [e|lefts] eqn:Hl; [discriminate|].
      cbn [bind] in Hrun. inversion Hrun; subst; clear Hrun.
      apply tf_range_from_zero in Ht; [|lia].
      apply tf_range_from_zero in Hl; [|lia].
      rewrite Forall_forall in *. intros [t l] Hin. simpl.
      apply in_flat_map in Hin as [l0 [Hl0 Hin]].
      apply in_map_iff in Hin as [t0 [Heq Ht0]]. inversion Heq; subst.
      split; [apply Ht|apply Hl]; assumption. }
  eapply Forall_impl; [|exact Hcoords].
  intros [t l]; simpl. intros [Ht Hl]. split; [lia|].
  intros img Hh Hw. unfold Planner.get_crop; simpl.
  apply crop_in_bounds_succeeds; lia.
Qed.

Lemma boxes_inside_image_witness :
  exists boxes,
    Planner.prepare_crops_bbox Fixtures.grid_self Fixtures.zero_generator 64 64
    = inr (boxes, Fixtures.zero_generator) /\
    length boxes = 9%nat /\
    Forall (fun box =>
              (0 <= fst box <= 64 - 16 /\ 0 <= snd box <= 64 - 16) /\
              forall img, Tensor.height img = 64 -> Tensor.width img = 64 ->
                          exists crop, Planner.get_crop Fixtures.grid_self img box = inr crop)
           boxes.
Proof.
  eexists. split; [vm_compute; reflexivity|]. split; [reflexivity|].
  apply (boxes_inside_image Fixtures.grid_self Fixtures.zero_generator
                            Fixtures.zero_generator 64 64).
  - reflexivity.
  - split; discriminate.
  - split; discriminate.
  - vm_compute; reflexivity.
Defined.

(** C1, as the code has it.  In random mode, on an image larger than the
    patch, the planner returns exactly
    [min(int32(coverage * float32(H*W) / float32(patchSize^2)),
    max_patches_per_image)] boxes, the quotient being computed in float32
    and truncated toward zero; there is no lower bound of one. *)
Theorem random_patch_count (self : FileListProcessor) (g : global_generator) (H W : Z) :
  shuffle_samples self = true ->
  0 <= patchSize self ->
  patchSize self < H <= Int32.max_signed ->
  patchSize self < W <= Int32.max_signed ->
  0 <= Z.min (F32.to_int32
                (F32.div
                   (F32.mul (F32.of_f64 (image_area_coverage_factor self))
                            (F32.of_Z (Int32.wrap32 (H * W))))
                   (F32.of_Z (patchSize self * patchSize self))))
             (max_patches_per_image self) ->
  exists boxes g',
    Planner.prepare_crops_bbox self g H W = inr (boxes, g') /\
    Z.of_nat (length boxes) =
    Z.min (F32.to_int32
             (F32.div
                (F32.mul (F32.of_f64 (image_area_coverage_factor self))
                         (F32.of_Z (Int32.wrap32 (H * W))))
                (F32.of_Z (patchSize self * patchSize self))))
          (max_patches_per_image self).
Proof.
  intros Hsh Hps HH HW Hn.
  unfold Planner.prepare_crops_bbox. rewrite Hsh.
  rewrite !wrap32_small by (unfold Int32.min_signed, Int32.max_signed in *; lia).
  fold (Planner.number_of_patches self H W) in *.
  fold (Planner.saturate_number_of_patches self H W) in *.
  set (n := Planner.saturate_number_of_patches self H W) in *.
  destruct (random_uniform_int_total g n 0 (H - patchSize self) Hn)
    as [tops [g1 Ht]]; [lia|].
  rewrite Ht. cbn [bind].
  destruct (random_uniform_int_total g1 n 0 (W - patchSize self) Hn)
    as [lefts [g2 Hl]]; [lia|].
  rewrite Hl. cbn [bind].
  exists (combine tops lefts), g2. split; [reflexivity|].
  apply random_uniform_int_inv in Ht as [Ht _].
  apply random_uniform_int_inv in Hl as [Hl _].
  rewrite length_combine. lia.
Qed.

Lemma random_patch_count_witness :
  exists boxes g',
    Planner.prepare_crops_bbox (Fixtures.random_self (F64.of_dyadic 2 0))
                               Fixtures.zero_generator 64 64 = inr (boxes, g') /\
    Z.of_nat (length boxes) = 3.
Proof.
  apply (random_patch_count (Fixtures.random_self (F64.of_dyadic 2 0))
                            Fixtures.zero_generator 64 64).
  - reflexivity.
  - discriminate.
  - split; [reflexivity|discriminate].
  - split; [reflexivity|discriminate].
  - discriminate.
Defined.

(** C1 fails as stated.  A 64 x 64 image, patches of 48 pixels and a
    coverage factor of 0.5: the constructor accepts the arguments, the
    planner returns no box at all, and the stated count is 1.  With the
    default factor 2.0 the planner returns 3 boxes where the stated count,
    which rounds 3.56, is 4. *)
Lemma patch_count_counterexample :
  Init.__init__ Fixtures.fs64 (Fixtures.random_args (F64.of_dyadic 1 (-1)))
  = inr (Fixtures.random_self (F64.of_dyadic 1 (-1))) /\
  shuffle_samples (Fixtures.random_self (F64.of_dyadic 1 (-1))) = true /\
  patchSize (Fixtures.random_self (F64.of_dyadic 1 (-1))) = 48 /\
  Planner.prepare_crops_bbox (Fixtures.random_self (F64.of_dyadic 1 (-1)))
                             Fixtures.zero_generator 64 64
  = inr ([], Fixtures.zero_generator) /\
  SpecText.patch_count (1 # 2) 64 64 48 10 = 1 /\
  Z.of_nat (length (@nil (Z * Z))) <> SpecText.patch_count (1 # 2) 64 64 48 10 /\
  (exists boxes g',
      Planner.prepare_crops_bbox (Fixtures.random_self (F64.of_dyadic 2 0))
                                 Fixtures.zero_generator 64 64 = inr (boxes, g') /\
      Z.of_nat (length boxes) = 3) /\
  SpecText.patch_count 2 64 64 48 10 = 4.
Proof.
  repeat split; try reflexivity; try (vm_compute; discriminate).
  eexists; eexists; split; vm_compute; reflexivity.
Qed.

(** ** FilterChain *)

Lemma crop_filter_from (filters : list (image -> bool)) (crop : image) (acc : bool) :
  fold_left (fun filter_ok f => filter_ok && f crop) filters acc
  = acc && forallb (fun f => f crop) filters.
Proof.
  revert acc. induction filters as [|f fs IH]; intros acc; simpl.
  - now rewrite andb_true_r.
  - rewrite IH. now rewrite andb_assoc.
Qed.

Lemma crop_filter_forallb (filters : list (image -> bool)) (crop : image) :
  Filters.crop_filter filters crop = forallb (fun f => f crop) filters.
Proof.
  unfold Filters.crop_filter. now rewrite crop_filter_from.
Qed.

Lemma forallb_Permutation {A : Type} (p : A -> bool) (l l' : list A) :
  Permutation l l' -> forallb p l = forallb p l'.
Proof.
  induction 1; simpl.
  - reflexivity.
  - now rewrite IHPermutation.
  - now rewrite !andb_assoc, (andb_comm (p y) (p x)).
  - congruence.
Qed.

(** C5.  The loop of [crop_filter] accepts a crop exactly when every
    predicate of the chain accepts it; the empty chain accepts every crop;
    and two chains that are permutations of one another accept the same
    crops.  This holds in particular of the chain [_setup_crop_filters]
    builds. *)
Theorem filter_chain_is_conjunction :
  (forall filters crop,
      Filters.crop_filter filters crop = true <->
      Forall (fun f => f crop = true) filters) /\
  (forall crop, Filters.crop_filter [] crop = true) /\
  (forall filters filters' crop,
      Permutation filters filters' ->
      Filters.crop_filter filters crop = Filters.crop_filter filters' crop) /\
  (forall self crop,
      Filters._crop_filter self crop = true <->
      Forall (fun f => f crop = true) (Filters._setup_crop_filters self)).
Proof.
  assert (Hiff : forall filters crop,
             Filters.crop_filter filters crop = true <->
             Forall (fun f => f crop = true) filters).
  { intros filters crop. rewrite crop_filter_forallb, forallb_forall, Forall_forall.
    reflexivity. }
  split; [exact Hiff|]. split; [reflexivity|]. split.
  - intros filters filters' crop Hperm.
    rewrite !crop_filter_forallb. now apply forallb_Permutation.
  - intros self crop. apply Hiff.
Qed.

Lemma filter_chain_witness :
  Filters.crop_filter [Filters.has_no_nans; fun _ => true] [] =
  Filters.crop_filter [fun _ => true; Filters.has_no_nans] [].
Proof.
  apply (proj1 (proj2 (proj2 filter_chain_is_conjunction))).
  apply perm_swap.
Defined.

(** *** The entropy filter on a constant reference *)




















(** ** Tensors *)

Lemma transpose_Forall (Q : list pixel -> Prop) (img : image) :
  Forall (Forall Q) img -> Forall (Forall Q) (Tensor.transpose img).
Proof.
  induction img as [|row rest IH]; intros Himg; [constructor|].
  inversion Himg as [|? ? Hrow Hrest]; subst. specialize (IH Hrest).
  cbn [Tensor.transpose]. destruct rest as [|r rest'].
  - rewrite Forall_forall in *. intros col Hcol.
    apply in_map_iff in Hcol as [px [<- Hpx]]. constructor; [auto|constructor].
  - rewrite Forall_forall. intros col Hcol.
    apply in_map_iff in Hcol as [[px c] [<- Hin]].
    constructor.
    + rewrite Forall_forall in Hrow. apply Hrow. eapply in_combine_l; eauto.
    + rewrite Forall_forall in IH. apply IH. eapply in_combine_r; eauto.
Qed.

Lemma transpose_lengths (w : nat) (img : image) :
  img <> [] ->
  Forall (fun row => length row = w) img ->
  length (Tensor.transpose img) = w /\
  Forall (fun col => length col = length img) (Tensor.transpose img).
Proof.
  induction img as [|row rest IH]; intros Hne Hrows; [congruence|].
  inversion Hrows as [|? ? Hrow Hrest]; subst.
  cbn [Tensor.transpose]. destruct rest as [|r rest'].
  - rewrite length_map. split; [reflexivity|].
    rewrite Forall_forall. intros col Hcol.
    apply in_map_iff in Hcol as [px [<- _]]. reflexivity.
  - destruct IH as [IHl IHc]; [discriminate|assumption|].
    rewrite length_map, length_combine, IHl. split; [apply Nat.min_id|].
    rewrite Forall_forall. intros col Hcol.
    apply in_map_iff in Hcol as [[px c] [<- Hin]].
    rewrite Forall_forall in IHc. cbn [length]. f_equal.
    apply IHc. eapply in_combine_r; eauto.
Qed.

Lemma has_shape_split (h w c : nat) (img : image) :
  Tensor.has_shape h w c img <->
  length img = h /\ Forall (fun row => length row = w) img /\
  Forall (Forall (fun px => length px = c)) img.
Proof.
  unfold Tensor.has_shape. rewrite !Forall_forall. firstorder.
Qed.

Lemma has_shape_transpose (h w c : nat) (img : image) :
  (0 < h)%nat ->
  Tensor.has_shape h w c img -> Tensor.has_shape w h c (Tensor.transpose img).
Proof.
  intros Hh. rewrite !has_shape_split. intros [Hlen [Hrows Hpx]].
  assert (Hne : img <> []) by (destruct img; [simpl in Hlen; lia|discriminate]).
  destruct (transpose_lengths w img Hne Hrows) as [Hl Hc].
  split; [exact Hl|]. split; [now rewrite <- Hlen|].
  now apply transpose_Forall.
Qed.

Lemma has_shape_flip_left_right (h w c : nat) (img : image) :
  Tensor.has_shape h w c img -> Tensor.has_shape h w c (Tensor.flip_left_right img).
Proof.
  unfold Tensor.has_shape, Tensor.flip_left_right. intros [Hlen Hrows].
  rewrite length_map. split; [exact Hlen|].
  rewrite Forall_forall in *. intros row Hrow.
  apply in_map_iff in Hrow as [r [<- Hr]]. destruct (Hrows r Hr) as [Hw Hc].
  rewrite length_rev. split; [exact Hw|]. now apply Forall_rev.
Qed.

Lemma has_shape_flip_up_down (h w c : nat) (img : image) :
  Tensor.has_shape h w c img -> Tensor.has_shape h w c (Tensor.flip_up_down img).
Proof.
  unfold Tensor.has_shape, Tensor.flip_up_down. intros [Hlen Hrows].
  rewrite length_rev. split; [exact Hlen|]. now apply Forall_rev.
Qed.

Lemma has_shape_map_pixels (f : pixel -> pixel) (h w c : nat) (img : image) :
  Tensor.has_shape h w c img -> Tensor.has_shape h w c (Tensor.map_pixels f img).
Proof.
  unfold Tensor.has_shape, Tensor.map_pixels. intros [Hlen Hrows].
  rewrite length_map. split; [exact Hlen|].
  rewrite Forall_forall in *. intros row Hrow.
  apply in_map_iff in Hrow as [r [<- Hr]]. destruct (Hrows r Hr) as [Hw Hc].
  rewrite length_map. split; [exact Hw|].
  rewrite Forall_forall in *. intros px Hpx.
  apply in_map_iff in Hpx as [p [<- Hp]]. rewrite length_map. now apply Hc.
Qed.

(** A quarter turn swaps height and width; the channel depth stays. *)
Lemma has_shape_rot90 (h w c : nat) (img : image) (k : Z) :
  (0 < h)%nat -> (0 < w)%nat ->
  Tensor.has_shape h w c img ->
  exists h' w', (0 < h')%nat /\ (0 < w')%nat /\
                Tensor.has_shape h' w' c (Tensor.rot90 img k).
Proof.
  intros Hh Hw Himg.
  assert (H0 : exists h' w', (0 < h')%nat /\ (0 < w')%nat /\ Tensor.has_shape h' w' c img)
    by (exists h, w; auto).
  assert (H1 : exists h' w', (0 < h')%nat /\ (0 < w')%nat /\
                 Tensor.has_shape h' w' c (Tensor.transpose (Tensor.flip_left_right img))).
  { exists w, h. split; [assumption|]. split; [assumption|].
    apply has_shape_transpose; [assumption|]. now apply has_shape_flip_left_right. }
  assert (H2 : exists h' w', (0 < h')%nat /\ (0 < w')%nat /\
                 Tensor.has_shape h' w' c (Tensor.flip_up_down (Tensor.flip_left_right img))).
  { exists h, w. split; [assumption|]. split; [assumption|].
    apply has_shape_flip_up_down. now apply has_shape_flip_left_right. }
  assert (H3 : exists h' w', (0 < h')%nat /\ (0 < w')%nat /\
                 Tensor.has_shape h' w' c (Tensor.flip_left_right (Tensor.transpose img))).
  { exists w, h. split; [assumption|]. split; [assumption|].
    apply has_shape_flip_left_right. now apply has_shape_transpose. }
  unfold Tensor.rot90.
  destruct (k mod 4) as [|[[|?|]|[|?|]|]|?];
    first [exact H0 | exact H1 | exact H2 | exact H3].
Qed.

Lemma has_shape_slice_channels (h w c b n : nat) (img : image) :
  (b + n <= c)%nat ->
  Tensor.has_shape h w c img -> Tensor.has_shape h w n (Tensor.slice_channels b n img).
Proof.
  intros Hbn. unfold Tensor.has_shape, Tensor.slice_channels. intros [Hlen Hrows].
  rewrite length_map. split; [exact Hlen|].
  rewrite Forall_forall in *. intros row Hrow.
  apply in_map_iff in Hrow as [r [<- Hr]]. destruct (Hrows r Hr) as [Hw Hc].
  rewrite length_map. split; [exact Hw|].
  rewrite Forall_forall in *. intros px Hpx.
  apply in_map_iff in Hpx as [p [<- Hp]].
  unfold Tensor.slice_list. rewrite length_firstn, length_skipn, (Hc p Hp). lia.
Qed.

Lemma slice_list_app_r {A : Type} (x y : list A) :
  Tensor.slice_list (length x) (length y) (x ++ y) = y.
Proof.
  unfold Tensor.slice_list. rewrite skipn_app, skipn_all, Nat.sub_diag. simpl.
  apply firstn_all.
Qed.

Lemma slice_list_app_l {A : Type} (x y : list A) :
  Tensor.slice_list 0 (length x) (x ++ y) = x.
Proof.
  unfold Tensor.slice_list. simpl. rewrite firstn_app, firstn_all, Nat.sub_diag.
  simpl. apply app_nil_r.
Qed.

Lemma map_combine_snd {A B C : Type} (f : A * B -> C) (g : C -> B)
      (l1 : list A) (l2 : list B) :
  length l1 = length l2 ->
  (forall a b, In (a, b) (combine l1 l2) -> g (f (a, b)) = b) ->
  map g (map f (combine l1 l2)) = l2.
Proof.
  revert l2. induction l1 as [|a l1 IH]; intros [|b l2] Hlen Hf;
    simpl in *; try discriminate; [reflexivity|].
  rewrite Hf by (now left). f_equal. apply IH; [lia|]. intros; apply Hf; now right.
Qed.

Lemma map_combine_fst {A B C : Type} (f : A * B -> C) (g : C -> A)
      (l1 : list A) (l2 : list B) :
  length l1 = length l2 ->
  (forall a b, In (a, b) (combine l1 l2) -> g (f (a, b)) = a) ->
  map g (map f (combine l1 l2)) = l1.
Proof.
  revert l2. induction l1 as [|a l1 IH]; intros [|b l2] Hlen Hf;
    simpl in *; try discriminate; [reflexivity|].
  rewrite Hf by (now left). f_equal. apply IH; [lia|]. intros; apply Hf; now right.
Qed.

(** Slicing a concatenation gives its parts back. *)
Lemma slice_concat_channels (h w a b : nat) (x y : image) :
  Tensor.has_shape h w a x -> Tensor.has_shape h w b y ->
  Tensor.slice_channels a b (Tensor.concat_channels x y) = y /\
  Tensor.slice_channels 0 a (Tensor.concat_channels x y) = x.
Proof.
  unfold Tensor.has_shape. intros [Hx Hxr] [Hy Hyr].
  rewrite Forall_forall in Hxr, Hyr.
  unfold Tensor.slice_channels, Tensor.concat_channels. split.
  - apply map_combine_snd; [congruence|]. intros rx ry Hin.
    destruct (Hxr rx (in_combine_l _ _ _ _ Hin)) as [Hwx Hcx].
    destruct (Hyr ry (in_combine_r _ _ _ _ Hin)) as [Hwy Hcy].
    rewrite Forall_forall in Hcx, Hcy.
    apply map_combine_snd; [congruence|]. intros px py Hpin.
    rewrite <- (Hcx px (in_combine_l _ _ _ _ Hpin)).
    rewrite <- (Hcy py (in_combine_r _ _ _ _ Hpin)).
    apply slice_list_app_r.
  - apply map_combine_fst; [congruence|]. intros rx ry Hin.
    destruct (Hxr rx (in_combine_l _ _ _ _ Hin)) as [Hwx Hcx].
    destruct (Hyr ry (in_combine_r _ _ _ _ Hin)) as [Hwy Hcy].
    rewrite Forall_forall in Hcx.
    apply map_combine_fst; [congruence|]. intros px py Hpin.
    rewrite <- (Hcx px (in_combine_l _ _ _ _ Hpin)).
    apply slice_list_app_l.
Qed.

(** ** TransformChain *)

Lemma plain_ops_shape : ShapePreserving Fixtures.plain_ops.
Proof. constructor; intros; simpl; assumption. Qed.

Section TransformChain.

Context {ops : ImageOps}.

Lemma apply_transforms_cons (t : Transforms.transform) (ts : list Transforms.transform)
      (s : seed) (img : image) (g : global_generator) :
  Transforms.apply_transforms (t :: ts) s img g
  = Transforms.apply_transforms ts s (fst (t img s g)) (snd (t img s g)).
Proof.
  unfold Transforms.apply_transforms. cbn [fold_left]. now destruct (t img s g).
Qed.

(** A property every transform of a chain preserves holds of the tensor
    the chain returns. *)
Lemma apply_transforms_invariant (P : image -> Prop) (ts : list Transforms.transform)
      (s : seed) :
  Forall (fun t : Transforms.transform =>
            forall img g, P img -> P (fst (t img s g))) ts ->
  forall img g, P img -> P (fst (Transforms.apply_transforms ts s img g)).
Proof.
  induction ts as [|t ts IH]; intros Hts img g Himg; [exact Himg|].
  inversion Hts as [|? ? Ht Hrest]; subst.
  rewrite apply_transforms_cons. apply IH; [assumption|]. now apply Ht.
Qed.

Lemma Forall_when {A : Type} (Q : A -> Prop) (b : bool) (x : A) :
  Q x -> Forall Q (Transforms.when b x).
Proof. intros Hx. destruct b; simpl; auto. Qed.

Lemma Forall_when_some {A B : Type} (Q : B -> Prop) (o : option A) (f : A -> B) :
  (forall a, Q (f a)) -> Forall Q (Transforms.when_some o f).
Proof. intros Hf. destruct o; simpl; auto. Qed.

(** Stage A keeps a non-empty tensor non-empty and its channel depth. *)
Lemma stage_a_shape (self : FileListProcessor) (s : seed) (c : nat) :
  Forall (fun t : Transforms.transform =>
            forall img g,
              (exists h w, (0 < h)%nat /\ (0 < w)%nat /\ Tensor.has_shape h w c img) ->
              exists h w, (0 < h)%nat /\ (0 < w)%nat /\
                          Tensor.has_shape h w c (fst (t img s g)))
         (Transforms.image_label_transforms self).
Proof.
  unfold Transforms.image_label_transforms.
  apply Forall_app; split; [|apply Forall_app; split; [|apply Forall_app; split]];
    apply Forall_when.
  - intros img g [h [w [Hh [Hw Himg]]]]. exists h, w. split; [|split]; try assumption.
    unfold Transforms.stateless, Transforms.replace_nans_by_zeros; simpl.
    now apply has_shape_map_pixels.
  - intros img g [h [w [Hh [Hw Himg]]]]. exists h, w. split; [|split]; try assumption.
    unfold Transforms.stateless, Transforms.stateless_random_flip_left_right; simpl.
    destruct (mirror_cond s); [now apply has_shape_flip_left_right|assumption].
  - intros img g [h [w [Hh [Hw Himg]]]]. exists h, w. split; [|split]; try assumption.
    unfold Transforms.stateless, Transforms.stateless_random_flip_up_down; simpl.
    destruct (mirror_cond s); [now apply has_shape_flip_up_down|assumption].
  - intros img g [h [w [Hh [Hw Himg]]]].
    unfold Transforms.random_rot90; simpl. now apply (has_shape_rot90 h w).
Qed.

(** With a reference, [before_post_process] re-concatenates the cast of
    the stage-B result and the cast of the reference slice taken after
    stage A. *)
Lemma before_post_process_with_reference (self : FileListProcessor) (s : seed)
      (crop : image) (g : global_generator) (photometric : list Transforms.transform) :
  no_reference self = false ->
  Transforms.image_pixels_transforms self
  = Transforms.stateless (Transforms.get_image_channels self) :: photometric ->
  fst (Transforms.before_post_process self s crop g)
  = Tensor.concat_channels
      (cast (out_dtype self)
            (fst (Transforms.apply_transforms photometric s
                    (Transforms.get_image_channels self
                       (fst (Transforms.apply_transforms
                               (Transforms.image_label_transforms self) s crop g)) s)
                    (snd (Transforms.apply_transforms
                            (Transforms.image_label_transforms self) s crop g)))))
      (cast (out_dtype self)
            (Transforms.reference_slice self
               (fst (Transforms.apply_transforms
                       (Transforms.image_label_transforms self) s crop g)))).
Proof.
  intros Href Hpix. unfold Transforms.before_post_process.
  destruct (Transforms.apply_transforms (Transforms.image_label_transforms self) s crop g)
    as [a g1].
  rewrite Hpix, apply_transforms_cons. cbn [fst snd Transforms.stateless].
  destruct (Transforms.apply_transforms photometric s
              (Transforms.get_image_channels self a s) g1) as [b g2].
  rewrite Href. reflexivity.
Qed.

Context {laws : ShapePreserving ops}.

(** Stage B after the raw slice keeps the shape of the raw slice. *)
Lemma stage_b_shape (self : FileListProcessor) (s : seed) (h w c : nat) :
  Forall (fun t : Transforms.transform =>
            forall img g, Tensor.has_shape h w c img ->
                          Tensor.has_shape h w c (fst (t img s g)))
         (Transforms.when (apply_whitening self) (Transforms.stateless Transforms.img_standardize)
          ++ Transforms.when_some (apply_random_brightness self)
               (fun d => Transforms.stateless (fun img s0 => stateless_random_brightness img d s0))
          ++ Transforms.when_some (apply_random_saturation self)
               (fun x => Transforms.stateless (fun img s0 =>
                  stateless_random_saturation img (1 - x)%Q (1 + x)%Q s0))
          ++ Transforms.when_some (apply_random_contrast self)
               (fun x => Transforms.stateless (fun img s0 =>
                  stateless_random_contrast img (1 - x)%Q (1 + x)%Q s0))).
Proof.
  apply Forall_app; split; [|apply Forall_app; split; [|apply Forall_app; split]];
    [apply Forall_when | apply Forall_when_some; intros a ..];
    intros img g Himg; simpl.
  - now apply standardization_shape.
  - now apply brightness_shape.
  - now apply saturation_shape.
  - now apply contrast_shape.
Qed.

(** C9.  On a crop with a reference, the tensor handed to the
    post-process function is the concatenation of two parts: its raw
    channels are the cast of what stage B returns on the raw slice of the
    stage-A result, and its reference channels are the cast of the reference
    slice of the stage-A result, whatever photometric ops are enabled.  The
    transformed crop is the post-process function applied to that tensor
    (the identity when none is given). *)
Theorem reference_untouched_by_stage_b (self : FileListProcessor) (rng : philox)
        (g : global_generator) (crop : image) (h w : nat) :
  no_reference self = false ->
  (0 < h)%nat -> (0 < w)%nat ->
  Tensor.has_shape h w (Z.to_nat (single_image_raw_depth self)
                        + Z.to_nat (single_image_reference_depth self)) crop ->
  let s := fst (make_seeds rng) in
  let stage_a := Transforms.apply_transforms (Transforms.image_label_transforms self) s crop g in
  let assembled := fst (Transforms.before_post_process self s crop g) in
  Transforms.reference_slice self assembled
  = cast (out_dtype self) (Transforms.reference_slice self (fst stage_a)) /\
  (exists photometric,
      Transforms.image_pixels_transforms self
      = Transforms.stateless (Transforms.get_image_channels self) :: photometric /\
      Tensor.slice_channels 0 (Z.to_nat (single_image_raw_depth self)) assembled
      = cast (out_dtype self)
             (fst (Transforms.apply_transforms photometric s
                     (Transforms.get_image_channels self (fst stage_a) s) (snd stage_a)))) /\
  fst (fst (Transforms.image_transform self rng g crop))
  = Transforms.post_process_fn self assembled s /\
  (crops_postprocess self = None ->
   fst (fst (Transforms.image_transform self rng g crop)) = assembled).
Proof.
  intros Href Hh Hw Hcrop s stage_a assembled.
  set (raw := Z.to_nat (single_image_raw_depth self)) in *.
  set (ref := Z.to_nat (single_image_reference_depth self)) in *.
  destruct (apply_transforms_invariant _ _ s (stage_a_shape self s (raw + ref)) crop g)
    as [h' [w' [Hh' [Hw' Ha]]]]; [exists h, w; auto|].
  fold stage_a in Ha.
  set (photometric :=
         Transforms.when (apply_whitening self) (Transforms.stateless Transforms.img_standardize)
         ++ Transforms.when_some (apply_random_brightness self)
              (fun d => Transforms.stateless (fun img s0 => stateless_random_brightness img d s0))
         ++ Transforms.when_some (apply_random_saturation self)
              (fun x => Transforms.stateless (fun img s0 =>
                 stateless_random_saturation img (1 - x)%Q (1 + x)%Q s0))
         ++ Transforms.when_some (apply_random_contrast self)
              (fun x => Transforms.stateless (fun img s0 =>
                 stateless_random_contrast img (1 - x)%Q (1 + x)%Q s0))).
  assert (Hpix : Transforms.image_pixels_transforms self
                 = Transforms.stateless (Transforms.get_image_channels self) :: photometric).
  { unfold Transforms.image_pixels_transforms. rewrite Href. reflexivity. }
  set (stage_b := Transforms.apply_transforms photometric s
                    (Transforms.get_image_channels self (fst stage_a) s) (snd stage_a)).
  assert (Hassembled : assembled
                       = Tensor.concat_channels
                           (cast (out_dtype self) (fst stage_b))
                           (cast (out_dtype self) (Transforms.reference_slice self (fst stage_a))))
    by (apply before_post_process_with_reference; assumption).
  assert (Hb : Tensor.has_shape h' w' raw (fst stage_b)).
  { apply (apply_transforms_invariant _ _ s (stage_b_shape self s h' w' raw)).
    unfold Transforms.get_image_channels. fold raw.
    apply (has_shape_slice_channels h' w' (raw + ref)); [lia|assumption]. }
  assert (Hr : Tensor.has_shape h' w' ref (Transforms.reference_slice self (fst stage_a))).
  { unfold Transforms.reference_slice. fold raw ref.
    apply (has_shape_slice_channels h' w' (raw + ref)); [lia|assumption]. }
  destruct (slice_concat_channels h' w' raw ref
              (cast (out_dtype self) (fst stage_b))
              (cast (out_dtype self) (Transforms.reference_slice self (fst stage_a))))
    as [Hsr Hsl]; [now apply has_shape_map_pixels..|].
  split; [|split; [|split]].
  - rewrite Hassembled. unfold Transforms.reference_slice at 1. fold raw ref. exact Hsr.
  - exists photometric. split; [exact Hpix|]. rewrite Hassembled. exact Hsl.
  - unfold Transforms.image_transform, assembled, s.
    destruct (make_seeds rng) as [s0 rng']. cbn [fst].
    now destruct (Transforms.before_post_process self s0 crop g).
  - intros Hpost. unfold Transforms.image_transform, assembled, s.
    destruct (make_seeds rng) as [s0 rng']. cbn [fst].
    destruct (Transforms.before_post_process self s0 crop g).
    unfold Transforms.post_process_fn. now rewrite Hpost.
Qed.

End TransformChain.

Lemma reference_untouched_witness :
  Transforms.reference_slice
    (Fixtures.bare_self false false true true true 2 1 (Some "zeros") (Some (1 # 2)%Q) float16)
    (fst (Transforms.before_post_process (ops := Fixtures.plain_ops)
            (Fixtures.bare_self false false true true true 2 1 (Some "zeros")
                                (Some (1 # 2)%Q) float16)
            (fst (make_seeds (from_seed 42))) Fixtures.small_composite
            Fixtures.zero_generator))
  = cast float16
         (Transforms.reference_slice
            (Fixtures.bare_self false false true true true 2 1 (Some "zeros")
                                (Some (1 # 2)%Q) float16)
            (fst (Transforms.apply_transforms
                    (Transforms.image_label_transforms (ops := Fixtures.plain_ops)
                       (Fixtures.bare_self false false true true true 2 1 (Some "zeros")
                                           (Some (1 # 2)%Q) float16))
                    (fst (make_seeds (from_seed 42))) Fixtures.small_composite
                    Fixtures.zero_generator))).
Proof.
  apply (reference_untouched_by_stage_b
           (ops := Fixtures.plain_ops) (laws := plain_ops_shape)
           (Fixtures.bare_self false false true true true 2 1 (Some "zeros")
                               (Some (1 # 2)%Q) float16)
           (from_seed 42) Fixtures.zero_generator Fixtures.small_composite 2 2).
  - reflexivity.
  - repeat constructor.
  - repeat constructor.
  - split; [reflexivity|]. repeat constructor.
Defined.

(** ** NaN handling *)






Section NanHandling.

Context {ops : ImageOps}.



(** C10.  In no-reference mode [_whiten_sample] raises on every sample:
    its second branch reads a name bound in the first branch only.  This is
    the function the full-frame branch maps over the dataset when whitening
    is on. *)
Theorem whiten_sample_unbound_local (self : FileListProcessor) (sample : image) :
  no_reference self = true ->
  full_frame_mode self = true ->
  apply_whitening self = true ->
  Transforms._whiten_sample self sample
  = inl (UnboundLocalError "single_image_channels").
Proof.
  intros Href _ _. unfold Transforms._whiten_sample. rewrite Href. reflexivity.
Qed.

End NanHandling.


Lemma whiten_sample_unbound_local_witness :
  Transforms._whiten_sample (ops := Fixtures.plain_ops)
    (Fixtures.bare_self true true true false false 3 0 None None float32)
    Fixtures.small_composite
  = inl (UnboundLocalError "single_image_channels").
Proof.
  apply (whiten_sample_unbound_local (ops := Fixtures.plain_ops)
           (Fixtures.bare_self true true true false false 3 0 None None float32)
           Fixtures.small_composite); reflexivity.
Defined.

(** ** Construction *)

Lemma bind_inl {A B : Type} (m : result A) (k : A -> result B) :
  (exists e, m = inl e) -> exists e, bind m k = inl e.
Proof. intros [e ->]. exists e. reflexivity. Qed.

Lemma one_is : F64Ops.one = S754_finite false 4503599627370496 (-52).
Proof. reflexivity. Qed.

(** A ratio that is 1 or negative is not above 1. *)
Lemma forced_not_above_one (ratio : spec_float) :
  SFeqb ratio F64Ops.one || SFltb ratio (S754_zero false) = true ->
  SFltb F64Ops.one ratio = false.
Proof.
  rewrite one_is. unfold SFeqb, SFltb.
  destruct ratio as [s|s| |s m e]; cbn [SFcompare orb].
  - destruct s; discriminate.
  - destruct s; [reflexivity|discriminate].
  - discriminate.
  - destruct s; [reflexivity|].
    destruct (e ?= -52) eqn:He; try discriminate.
    destruct (Pos.compare_cont Eq m 4503599627370496) eqn:Hm; try discriminate.
    intros _. apply Z.compare_eq in He. apply Pos.compare_eq in Hm. subst.
    reflexivity.
Qed.

(** What the constructor derives when the ratio is 1 or negative. *)
Lemma forced_geometry (fs : file_system) (a : Args.t) (geo : Init.geometry) :
  SFeqb (Args.patch_ratio_vs_input a) F64Ops.one
  || SFltb (Args.patch_ratio_vs_input a) (S754_zero false) = true ->
  Init.probe_and_geometry fs a = inr geo ->
  Init.geo_max_patches_per_image geo = 1 /\
  Init.geo_patch_ratio_vs_input geo = F64Ops.one /\
  Init.geo_full_frame_mode geo = true.
Proof.
  intros Hforced. unfold Init.probe_and_geometry.
  rewrite (forced_not_above_one _ Hforced), Hforced.
  destruct (Init.imread_raw0 fs a) as [e|raw0]; [discriminate|]. cbn [bind].
  destruct (Init.index raw0 0 _) as [e|shape0]; [discriminate|]. cbn [bind].
  destruct (Init.index raw0 1 _) as [e|shape1]; [discriminate|]. cbn [bind].
  destruct (Init.probe_depths fs a raw0) as [e|[[[nr rd] fd] ff]]; [discriminate|].
  cbn [bind].
  destruct (F64Ops.py_div _ _) as [e|q]; [discriminate|]. cbn [bind].
  destruct (F64Ops.py_int _) as [e|ps]; [discriminate|]. cbn [bind].
  intros H; inversion H; subst; clear H. cbn. repeat split; reflexivity.
Qed.

(** C6: the first half holds, the second does not.  A ratio of 1 or below
    0 does force [max_patches_per_image] to 1 and select full-frame mode;
    but then no pipeline is ever returned: whatever the files and the other
    arguments, [__init__] raises. *)
Theorem full_frame_construction_raises (fs : file_system) (a : Args.t) :
  SFeqb (Args.patch_ratio_vs_input a) F64Ops.one
  || SFltb (Args.patch_ratio_vs_input a) (S754_zero false) = true ->
  (forall geo, Init.probe_and_geometry fs a = inr geo ->
               Init.geo_max_patches_per_image geo = 1 /\
               Init.geo_full_frame_mode geo = true) /\
  (exists e, Init.__init__ fs a = inl e) /\
  (forall geo shape loading_fn,
      F64.le_zero (Args.image_area_coverage_factor a) = false ->
      Args.additionnal_filters a <> FiltersNotAList ->
      Init.probe_and_geometry fs a = inr geo ->
      (Args.field_of_view a mod 2 =? 0) && negb (Args.field_of_view a =? 0) = false ->
      Init.geo_fullframe_ref_shape geo = Some shape ->
      Init._setup_load_raw_images_from_filenames fs a = inr loading_fn ->
      Init.__init__ fs a = inl (AttributeError "_load_raw_images_from_filenames")).
Proof.
  intros Hforced. split; [|split].
  - intros geo Hgeo. destruct (forced_geometry fs a geo Hforced Hgeo) as [H1 [_ H3]].
    now split.
  - unfold Init.__init__.
    destruct (F64.le_zero _); [eexists; reflexivity|].
    destruct (Args.additionnal_filters a) as [|filters|]; cbn iota;
      try (eexists; reflexivity).
    + destruct (Init.probe_and_geometry fs a) as [e|geo] eqn:Hgeo;
        [eexists; reflexivity|]. cbn [bind].
      destruct (forced_geometry fs a geo Hforced Hgeo) as [_ [_ Hff]].
      destruct ((Args.field_of_view a mod 2 =? 0) && negb (Args.field_of_view a =? 0));
        [eexists; reflexivity|].
      rewrite Hff.
      destruct (Init.geo_fullframe_ref_shape geo); [|eexists; reflexivity]. cbn [bind].
      destruct (Init._setup_load_raw_images_from_filenames fs a);
        [eexists; reflexivity|]. cbn [bind].
      eexists; reflexivity.
    + destruct (Init.probe_and_geometry fs a) as [e|geo] eqn:Hgeo;
        [eexists; reflexivity|]. cbn [bind].
      destruct (forced_geometry fs a geo Hforced Hgeo) as [_ [_ Hff]].
      destruct ((Args.field_of_view a mod 2 =? 0) && negb (Args.field_of_view a =? 0));
        [eexists; reflexivity|].
      rewrite Hff.
      destruct (Init.geo_fullframe_ref_shape geo); [|eexists; reflexivity]. cbn [bind].
      destruct (Init._setup_load_raw_images_from_filenames fs a);
        [eexists; reflexivity|]. cbn [bind].
      eexists; reflexivity.
  - intros geo shape loading_fn Hcf Hfilters Hgeo Hfov Hshape Hload.
    destruct (forced_geometry fs a geo Hforced Hgeo) as [_ [_ Hff]].
    unfold Init.__init__. rewrite Hcf.
    destruct (Args.additionnal_filters a) as [|filters|]; cbn iota; [| |congruence];
      rewrite Hgeo; cbn [bind]; rewrite Hfov, Hff, Hshape; cbn [bind];
      rewrite Hload; reflexivity.
Qed.

Lemma full_frame_construction_raises_witness :
  Init.__init__ Fixtures.fs64 Fixtures.full_frame_args
  = inl (AttributeError "_load_raw_images_from_filenames") /\
  exists e, Init.__init__ Fixtures.fs64 Fixtures.full_frame_args = inl e.
Proof.
  split; [reflexivity|].
  apply (full_frame_construction_raises Fixtures.fs64 Fixtures.full_frame_args).
  reflexivity.
Defined.

(** C8.  Each of the four faults makes [__init__] raise, so that no
    pipeline is returned.  A non-positive coverage factor and a filters
    argument that is not a list are reported first, before any file is read;
    a probe pair of different height or width is reported when both probe
    images have been read; an even, non-zero field of view is reported once
    the probe and the patch geometry are through.  The four reports are
    [ValueError]s. *)
Theorem construction_fails_fast (fs : file_system) (a : Args.t) :
  (F64.le_zero (Args.image_area_coverage_factor a) = true ->
   Init.__init__ fs a
   = inl (ValueError
       "Error when constructing DataProvider: image_area_coverage_factor must be above 0")) /\
  (F64.le_zero (Args.image_area_coverage_factor a) = false ->
   Args.additionnal_filters a = FiltersNotAList ->
   Init.__init__ fs a
   = inl (ValueError
       "Error when constructing DataProvider: additionnal_filters must be a list of functions")) /\
  (forall refs raw_path ref_path h w rest h' w' rest',
      F64.le_zero (Args.image_area_coverage_factor a) = false ->
      Args.additionnal_filters a <> FiltersNotAList ->
      Args.filelist_reference_data a = RefFiles refs ->
      nth_error (Args.filelist_raw_data a) 0 = Some raw_path ->
      nth_error refs 0 = Some ref_path ->
      imread_shape fs raw_path = Some (h :: w :: rest) ->
      imread_shape fs ref_path = Some (h' :: w' :: rest') ->
      h <> h' \/ w <> w' ->
      Init.__init__ fs a
      = inl (ValueError
          "FileListProcessor_input::__init__ Error, first input files do not have the same pixel size")) /\
  (Args.field_of_view a mod 2 = 0 -> Args.field_of_view a <> 0 ->
   (exists e, Init.__init__ fs a = inl e) /\
   (forall geo,
       F64.le_zero (Args.image_area_coverage_factor a) = false ->
       Args.additionnal_filters a <> FiltersNotAList ->
       Init.probe_and_geometry fs a = inr geo ->
       Init.__init__ fs a = inl (ValueError "field_of_view must be odd or 0"))).
Proof.
  split; [|split; [|split]].
  - intros Hcf. unfold Init.__init__. now rewrite Hcf.
  - intros Hcf Hfilters. unfold Init.__init__. now rewrite Hcf, Hfilters.
  - intros refs raw_path ref_path h w rest h' w' rest'
           Hcf Hfilters Hrefs Hraw Href Hshape Hshape' Hdiff.
    assert (Hprobe : Init.probe_and_geometry fs a
                     = inl (ValueError
          "FileListProcessor_input::__init__ Error, first input files do not have the same pixel size")).
    { unfold Init.probe_and_geometry, Init.imread_raw0, Init.index.
      rewrite Hraw. cbn [bind ok]. rewrite Hshape. cbn [bind ok nth_error].
      unfold Init.probe_depths, Init.index. rewrite Hrefs, Href. cbn [bind ok].
      rewrite Hshape'. cbn [bind ok nth_error].
      destruct (h =? h') eqn:Eh; cbn [negb bind ok]; [|reflexivity].
      apply Z.eqb_eq in Eh.
      destruct (w =? w') eqn:Ew; cbn [negb bind ok]; [|reflexivity].
      apply Z.eqb_eq in Ew. destruct Hdiff; congruence. }
    unfold Init.__init__. rewrite Hcf.
    destruct (Args.additionnal_filters a) as [|filters|]; cbn iota; [| |congruence];
      rewrite Hprobe; reflexivity.
  - intros Heven Hnz.
    assert (Hfov : (Args.field_of_view a mod 2 =? 0) && negb (Args.field_of_view a =? 0)
                   = true).
    { apply andb_true_intro. split; [now apply Z.eqb_eq|].
      apply negb_true_iff. now apply Z.eqb_neq. }
    split.
    + unfold Init.__init__.
      destruct (F64.le_zero _); [eexists; reflexivity|].
      destruct (Args.additionnal_filters a) as [|filters|]; cbn iota;
        try (eexists; reflexivity);
        (destruct (Init.probe_and_geometry fs a) as [e|geo];
         [eexists; reflexivity|]; cbn [bind]; rewrite Hfov; eexists; reflexivity).
    + intros geo Hcf Hfilters Hgeo. unfold Init.__init__. rewrite Hcf.
      destruct (Args.additionnal_filters a) as [|filters|]; cbn iota; [| |congruence];
        rewrite Hgeo; cbn [bind]; rewrite Hfov; reflexivity.
Qed.

Lemma construction_fails_fast_witness :
  Init.__init__ Fixtures.fs_mismatch (Fixtures.pair_args 0)
  = inl (ValueError
      "FileListProcessor_input::__init__ Error, first input files do not have the same pixel size") /\
  Init.__init__ Fixtures.fs64 (Fixtures.pair_args 4)
  = inl (ValueError "field_of_view must be odd or 0") /\
  Init.__init__ Fixtures.fs64
    (Fixtures.random_args (SFopp (F64.of_dyadic 1 0)))
  = inl (ValueError
      "Error when constructing DataProvider: image_area_coverage_factor must be above 0") /\
  Init.__init__ Fixtures.fs64
    (Fixtures.args_with RefLastChannel true (F64.of_dyadic 3 (-2)) (F64.of_dyadic 2 0)
                        0 None FiltersNotAList false false)
  = inl (ValueError
      "Error when constructing DataProvider: additionnal_filters must be a list of functions").
Proof.
  split; [|split; [|split]].
  - apply (proj1 (proj2 (proj2 (construction_fails_fast
                                  Fixtures.fs_mismatch (Fixtures.pair_args 0))))
             ["a_ref.png"; "b_ref.png"] "a.tif" "a_ref.png" 64 64 [3] 32 32 []);
      try reflexivity; [discriminate | left; discriminate].
  - destruct (proj2 (proj2 (proj2 (construction_fails_fast
                                     Fixtures.fs64 (Fixtures.pair_args 4)))))
      as [_ H]; [reflexivity|discriminate|].
    eapply H; [reflexivity|discriminate|reflexivity].
  - apply (proj1 (construction_fails_fast Fixtures.fs64 _)). reflexivity.
  - apply (proj1 (proj2 (construction_fails_fast Fixtures.fs64 _))); reflexivity.
Defined.

(** ** Determinism of a run *)

Section Determinism.

Context {ops : ImageOps}.

Lemma apply_transforms_generator_free (ts : list Transforms.transform) (s : seed) :
  Forall (fun t : Transforms.transform =>
            forall img g g', fst (t img s g) = fst (t img s g')) ts ->
  forall img g g',
    fst (Transforms.apply_transforms ts s img g)
    = fst (Transforms.apply_transforms ts s img g').
Proof.
  induction ts as [|t ts IH]; intros Hts img g g'; [reflexivity|].
  inversion Hts as [|? ? Ht Hrest]; subst.
  rewrite !apply_transforms_cons, (Ht img g g'). now apply IH.
Qed.

Lemma stateless_generator_free (f : image -> seed -> image) (s : seed)
      (img : image) (g g' : global_generator) :
  fst (Transforms.stateless f img s g) = fst (Transforms.stateless f img s g').
Proof. reflexivity. Qed.

Lemma label_transforms_generator_free (self : FileListProcessor) (s : seed) :
  apply_random_rot90 self = false ->
  Forall (fun t : Transforms.transform =>
            forall img g g', fst (t img s g) = fst (t img s g'))
         (Transforms.image_label_transforms self).
Proof.
  intros Hrot. unfold Transforms.image_label_transforms. rewrite Hrot.
  cbn [Transforms.when].
  apply Forall_app; split; [|apply Forall_app; split; [|apply Forall_app; split]];
    first [apply Forall_nil | apply Forall_when; intros; apply stateless_generator_free].
Qed.

Lemma pixels_transforms_generator_free (self : FileListProcessor) (s : seed) :
  Forall (fun t : Transforms.transform =>
            forall img g g', fst (t img s g) = fst (t img s g'))
         (Transforms.image_pixels_transforms self).
Proof.
  unfold Transforms.image_pixels_transforms.
  apply Forall_app; split;
    [|apply Forall_app; split; [|apply Forall_app; split; [|apply Forall_app; split]]];
    try apply Forall_when; try apply Forall_when_some; intros;
    apply stateless_generator_free.
Qed.

(** Without the random quarter turn, the transformed crop and the next
    state of the pipeline's own generator are functions of the crop and of
    that generator alone. *)
Lemma image_transform_generator_free (self : FileListProcessor) (rng : philox)
      (crop : image) (g g' : global_generator) :
  apply_random_rot90 self = false ->
  fst (Transforms.image_transform self rng g crop)
  = fst (Transforms.image_transform self rng g' crop).
Proof.
  intros Hrot. unfold Transforms.image_transform.
  destruct (make_seeds rng) as [s rng'].
  assert (Hb : fst (Transforms.before_post_process self s crop g)
               = fst (Transforms.before_post_process self s crop g')).
  { unfold Transforms.before_post_process.
    pose proof (apply_transforms_generator_free _ s
                  (label_transforms_generator_free self s Hrot) crop g g') as Ha.
    destruct (Transforms.apply_transforms (Transforms.image_label_transforms self) s crop g)
      as [a g1].
    destruct (Transforms.apply_transforms (Transforms.image_label_transforms self) s crop g')
      as [a' g1']. cbn [fst] in Ha. subst a'.
    pose proof (apply_transforms_generator_free _ s
                  (pixels_transforms_generator_free self s) a g1 g1') as Hp.
    destruct (Transforms.apply_transforms (Transforms.image_pixels_transforms self) s a g1)
      as [b g2].
    destruct (Transforms.apply_transforms (Transforms.image_pixels_transforms self) s a g1')
      as [b' g2']. cbn [fst] in Hp. subst b'.
    now destruct (negb (no_reference self)). }
  destruct (Transforms.before_post_process self s crop g) as [t g1].
  destruct (Transforms.before_post_process self s crop g') as [t' g1'].
  cbn [fst] in *. now subst.
Qed.

Lemma map_transform_generator_free (self : FileListProcessor) (crops : list image) :
  apply_random_rot90 self = false ->
  forall rng g g',
    Stream.map_transform self rng g crops = Stream.map_transform self rng g' crops.
Proof.
  intros Hrot. induction crops as [|c crops IH]; intros rng g g'; [reflexivity|].
  cbn [Stream.map_transform].
  pose proof (image_transform_generator_free self rng c g g' Hrot) as Ht.
  destruct (Transforms.image_transform self rng g c) as [[t rng1] g1].
  destruct (Transforms.image_transform self rng g' c) as [[t' rng1'] g1'].
  cbn [fst] in Ht. inversion Ht; subst. f_equal. apply IH.
Qed.

Lemma grid_boxes_generator_free (self : FileListProcessor) (g : global_generator)
      (H W : Z) :
  shuffle_samples self = false ->
  exists r : result (list (Z * Z)),
    forall g0, Planner.prepare_crops_bbox self g0 H W
               = match r with inl e => inl e | inr boxes => inr (boxes, g0) end.
Proof.
  intros Hsh. unfold Planner.prepare_crops_bbox. rewrite Hsh.
  destruct (tf_range 0 (Int32.wrap32 (H - patchSize self)) _) as [e|tops].
  - exists (inl e). reflexivity.
  - cbn [bind].
    destruct (tf_range 0 (Int32.wrap32 (W - patchSize self)) _) as [e|lefts].
    + exists (inl e). reflexivity.
    + eexists (inr _). reflexivity.
Qed.

Lemma crops_dataset_generator_free (self : FileListProcessor) (file : string) :
  shuffle_samples self = false ->
  exists r : result (list image),
    forall g, Stream.crops_dataset self g file
              = match r with inl e => inl e | inr crops => inr (crops, g) end.
Proof.
  intros Hsh. unfold Stream.crops_dataset.
  destruct (image_loading_fn self file) as [e|img].
  - exists (inl e). reflexivity.
  - cbn [bind].
    destruct (grid_boxes_generator_free self Fixtures.zero_generator
                (Tensor.height img) (Tensor.width img) Hsh) as [[e|boxes] Hr].
    + exists (inl e). intros g. now rewrite Hr.
    + destruct (Stream.mapM (Planner.get_crop self img) boxes) as [e|crops] eqn:Hm.
      * exists (inl e). intros g. rewrite Hr. cbn [bind]. now rewrite Hm.
      * eexists (inr _). intros g. rewrite Hr. cbn [bind]. rewrite Hm. reflexivity.
Qed.

Lemma generate_all_generator_free (self : FileListProcessor) (files : list string) :
  shuffle_samples self = false ->
  exists r : result (list (list image)),
    forall g, Stream.generate_all self g files
              = match r with inl e => inl e | inr per_file => inr (per_file, g) end.
Proof.
  intros Hsh. induction files as [|f files [r IH]].
  - exists (inr []). reflexivity.
  - cbn [Stream.generate_all].
    destruct (crops_dataset_generator_free self f Hsh) as [[e|crops] Hc].
    + exists (inl e). intros g. now rewrite Hc.
    + destruct r as [e|rest].
      * exists (inl e). intros g. rewrite Hc. cbn [bind]. now rewrite IH.
      * eexists (inr _). intros g. rewrite Hc. cbn [bind]. rewrite IH. reflexivity.
Qed.

(** With shuffling and the random quarter turn both off, a run is a
    function of the instance alone: the process-wide generator has no part
    in it. *)
Lemma run_deterministic_without_rot90 (self : FileListProcessor)
      (g g' : global_generator) :
  shuffle_samples self = false ->
  apply_random_rot90 self = false ->
  Stream.run self g = Stream.run self g'.
Proof.
  intros Hsh Hrot. unfold Stream.run.
  destruct (generate_all_generator_free self
              (concat (repeat (filelist self) (Z.to_nat (nbEpoch self)))) Hsh)
    as [[e|per_file] Hr]; rewrite !Hr; [reflexivity|].
  cbn [bind]. unfold ok. f_equal. f_equal.
  now apply map_transform_generator_free.
Qed.

(** C2 fails when the random quarter turn is on.  Two runs of one
    pipeline (shuffling off, same master seed, one epoch, same two files)
    that differ only in what the process-wide generator draws return
    different batches: the quarter turn takes its angle from that generator
    and leaves the crop's seed unused. *)
Theorem rot90_run_not_reproducible :
  Init.__init__ Fixtures.fs4 Fixtures.rot90_args = inr Fixtures.rot90_self /\
  shuffle_samples Fixtures.rot90_self = false /\
  apply_random_rot90 Fixtures.rot90_self = true /\
  (exists batches, Stream.run Fixtures.rot90_self Fixtures.zero_generator = inr batches) /\
  (exists batches, Stream.run Fixtures.rot90_self Fixtures.one_generator = inr batches) /\
  Stream.run Fixtures.rot90_self Fixtures.zero_generator
  <> Stream.run Fixtures.rot90_self Fixtures.one_generator.
Proof.
  split; [reflexivity|]. split; [reflexivity|]. split; [reflexivity|].
  split; [eexists; vm_compute; reflexivity|].
  split; [eexists; vm_compute; reflexivity|].
  vm_compute. intros H. discriminate H.
Qed.

End Determinism.

(** * Further properties of the pipeline *)

(** ** Seeds and alignment *)

(** X1.  With [shuffle_samples] and [apply_random_rot90] both off, the
    batches of a run (or the error it raises) do not depend on the state of
    the process-wide generator: the grid needs no draw, and every random
    transform left takes its randomness from the seed of the crop. *)
Theorem run_ignores_process_generator {ops : ImageOps} (self : FileListProcessor)
        (g g' : global_generator) :
  shuffle_samples self = false ->
  apply_random_rot90 self = false ->
  Stream.run self g = Stream.run self g'.
Proof.
  exact (run_deterministic_without_rot90 self g g').
Qed.

Lemma run_ignores_process_generator_witness :
  Stream.run (ops := Fixtures.plain_ops) Cases.plain_grid_self Fixtures.zero_generator
  = Stream.run (ops := Fixtures.plain_ops) Cases.plain_grid_self Fixtures.one_generator.
Proof.
  apply (run_ignores_process_generator (ops := Fixtures.plain_ops) Cases.plain_grid_self
           Fixtures.zero_generator Fixtures.one_generator); reflexivity.
Defined.

Section SeedsAndAlignment.

Context {ops : ImageOps}.


End SeedsAndAlignment.


(** ** Alignment of raw and reference channels *)

Lemma slice_list_map {A B : Type} (f : A -> B) (b n : nat) (l : list A) :
  Tensor.slice_list b n (map f l) = map f (Tensor.slice_list b n l).
Proof.
  unfold Tensor.slice_list. now rewrite skipn_map, firstn_map.
Qed.

Lemma slice_channels_map_pixels (f : pixel -> pixel) (b n : nat) (img : image) :
  Tensor.slice_channels b n (Tensor.map_pixels f img)
  = Tensor.map_pixels f (Tensor.slice_channels b n img).
Proof.
  unfold Tensor.slice_channels, Tensor.map_pixels. rewrite !map_map.
  apply map_ext. intros row. rewrite !map_map. apply map_ext. intros px.
  apply slice_list_map.
Qed.

Lemma slice_channels_flip_left_right (b n : nat) (img : image) :
  Tensor.slice_channels b n (Tensor.flip_left_right img)
  = Tensor.flip_left_right (Tensor.slice_channels b n img).
Proof.
  unfold Tensor.slice_channels, Tensor.flip_left_right. rewrite !map_map.
  apply map_ext. intros row. now rewrite map_rev.
Qed.

Lemma slice_channels_flip_up_down (b n : nat) (img : image) :
  Tensor.slice_channels b n (Tensor.flip_up_down img)
  = Tensor.flip_up_down (Tensor.slice_channels b n img).
Proof.
  unfold Tensor.slice_channels, Tensor.flip_up_down. now rewrite map_rev.
Qed.

Lemma combine_map_both {A B C D : Type} (f : A -> C) (g : B -> D)
      (l1 : list A) (l2 : list B) :
  combine (map f l1) (map g l2) = map (fun '(a, b) => (f a, g b)) (combine l1 l2).
Proof.
  revert l2. induction l1 as [|a l1 IH]; intros [|b l2]; simpl; try reflexivity.
  now rewrite IH.
Qed.

(** Transposition commutes with a map over the pixels. *)
Lemma transpose_map (f : list pixel -> list pixel) (img : image) :
  Tensor.transpose (map (map f) img) = map (map f) (Tensor.transpose img).
Proof.
  induction img as [|row rest IH]; [reflexivity|].
  cbn [map Tensor.transpose]. destruct rest as [|r rest'].
  - cbn [map]. rewrite !map_map. reflexivity.
  - change (map (map f) (r :: rest')) with (map f r :: map (map f) rest') in *.
    cbn [map] in IH |- *.
    change (match map (map f) rest' with
            | [] => map (fun px => [px]) (map f r)
            | _ :: _ => map (fun '(px, col) => px :: col)
                            (combine (map f r) (Tensor.transpose (map (map f) rest')))
            end)
      with (Tensor.transpose (map f r :: map (map f) rest')) in *.
    rewrite IH, combine_map_both, !map_map.
    apply map_ext. intros [px col]. reflexivity.
Qed.

Lemma slice_channels_rot90 (b n : nat) (img : image) (k : Z) :
  Tensor.slice_channels b n (Tensor.rot90 img k)
  = Tensor.rot90 (Tensor.slice_channels b n img) k.
Proof.
  unfold Tensor.rot90.
  assert (Ht : forall i, Tensor.slice_channels b n (Tensor.transpose i)
                         = Tensor.transpose (Tensor.slice_channels b n i)).
  { intros i. unfold Tensor.slice_channels. now rewrite transpose_map. }
  destruct (k mod 4) as [|[[|?|]|[|?|]|]|?];
    rewrite ?Ht, ?slice_channels_flip_left_right, ?slice_channels_flip_up_down,
            ?Ht, ?slice_channels_flip_left_right; reflexivity.
Qed.

Section Alignment.

Context {ops : ImageOps}.

Lemma label_transforms_commute_with_slice (self : FileListProcessor) (s : seed)
      (b n : nat) :
  Forall (fun t : Transforms.transform =>
            forall img g,
              t (Tensor.slice_channels b n img) s g
              = (Tensor.slice_channels b n (fst (t img s g)), snd (t img s g)))
         (Transforms.image_label_transforms self).
Proof.
  unfold Transforms.image_label_transforms.
  apply Forall_app; split; [|apply Forall_app; split; [|apply Forall_app; split]];
    apply Forall_when; intros img g.
  - unfold Transforms.stateless, Transforms.replace_nans_by_zeros. cbn [fst snd].
    now rewrite slice_channels_map_pixels.
  - unfold Transforms.stateless, Transforms.stateless_random_flip_left_right.
    cbn [fst snd]. destruct (mirror_cond s); [|reflexivity].
    now rewrite slice_channels_flip_left_right.
  - unfold Transforms.stateless, Transforms.stateless_random_flip_up_down.
    cbn [fst snd]. destruct (mirror_cond s); [|reflexivity].
    now rewrite slice_channels_flip_up_down.
  - unfold Transforms.random_rot90. cbn [take_draws fst snd].
    now rewrite slice_channels_rot90.
Qed.

(** X3.  Stage A keeps raw and reference pixels aligned: taking any range
    of channels of the stage-A result (the raw channels, the reference
    channels) gives what stage A, run with the same seed and generator,
    returns on that range of channels alone; and the generator is left in
    the same state. *)
Theorem geometric_stage_keeps_alignment (self : FileListProcessor) (s : seed)
        (b n : nat) (img : image) (g : global_generator) :
  Transforms.apply_transforms (Transforms.image_label_transforms self) s
                              (Tensor.slice_channels b n img) g
  = (Tensor.slice_channels b n
       (fst (Transforms.apply_transforms (Transforms.image_label_transforms self) s img g)),
     snd (Transforms.apply_transforms (Transforms.image_label_transforms self) s img g)).
Proof.
  pose proof (label_transforms_commute_with_slice self s b n) as Hts.
  revert img g.
  induction (Transforms.image_label_transforms self) as [|t ts IH]; intros img g.
  - reflexivity.
  - inversion Hts as [|? ? Ht Hrest]; subst.
    rewrite !apply_transforms_cons, Ht. cbn [fst snd]. now apply IH.
Qed.

End Alignment.

(** ** What a successful construction guarantees *)

Lemma probe_geometry_facts (fs : file_system) (a : Args.t) (geo : Init.geometry) :
  Init.probe_and_geometry fs a = inr geo ->
  Init.geo_radius_of_view geo
  = (if 0 <? Args.field_of_view a then (Args.field_of_view a - 1) / 2 else 0) /\
  (Init.geo_no_reference geo = true <-> Args.filelist_reference_data a = RefAbsent) /\
  (Args.filelist_reference_data a = RefAbsent -> Init.geo_reference_depth geo = 0) /\
  (Args.filelist_reference_data a = RefLastChannel -> Init.geo_reference_depth geo = 1).
Proof.
  unfold Init.probe_and_geometry.
  destruct (Init.imread_raw0 fs a) as [e|raw0]; [discriminate|]. cbn [bind].
  destruct (Init.index raw0 0 _) as [e|shape0]; [discriminate|]. cbn [bind].
  destruct (Init.index raw0 1 _) as [e|shape1]; [discriminate|]. cbn [bind].
  destruct (Init.probe_depths fs a raw0) as [e|[[[nr rd] fd] ff]] eqn:Hd; [discriminate|].
  cbn [bind].
  destruct (F64Ops.py_div _ _) as [e|q]; [discriminate|]. cbn [bind].
  assert (Hnr : (nr = true <-> Args.filelist_reference_data a = RefAbsent) /\
                (Args.filelist_reference_data a = RefAbsent -> fd = 0) /\
                (Args.filelist_reference_data a = RefLastChannel -> fd = 1)).
  { unfold Init.probe_depths in Hd.
    destruct (Args.filelist_reference_data a) as [|refs|].
    - destruct (Init.index raw0 2 _); [discriminate|]. cbn [bind ok] in Hd.
      inversion Hd; subst. repeat split; congruence.
    - destruct (Init.index refs 0 _); [discriminate|]. cbn [bind] in Hd.
      destruct (imread_shape fs _); [|discriminate].
      destruct (Init.index raw0 0 _); [discriminate|]. cbn [bind] in Hd.
      destruct (Init.index l 0 _); [discriminate|]. cbn [bind] in Hd.
      match type of Hd with
      | bind ?m _ = _ => destruct m as [e|[]]; [discriminate| |]; cbn [bind] in Hd
      end; [discriminate|].
      match type of Hd with
      | bind ?m _ = _ => destruct m as [e|d]; [discriminate|]; cbn [bind ok] in Hd
      end.
      inversion Hd; subst. repeat split; congruence.
    - destruct (Init.index raw0 2 _); [discriminate|]. cbn [bind ok] in Hd.
      inversion Hd; subst. repeat split; congruence. }
  match goal with
  | |- bind ?m _ = _ -> _ => destruct m as [e|[ps r]]; [discriminate|]; cbn [bind ok]
  end.
  intros H; inversion H; subst; clear H. cbn. tauto.
Qed.

(** X4.  When [__init__] returns an instance, the instance is in cropping
    mode (never full-frame), its coverage factor is not below or equal to 0,
    its field of view is 0 or odd (negative odd values included), its radius
    of view satisfies [field_of_view = 2 * radius + 1] for a positive field
    and is 0 otherwise, it is in no-reference mode exactly when the reference
    argument is neither [None] nor a list, and its descriptors and loader are
    those of the arguments. *)
Theorem constructed_instance_invariants (fs : file_system) (a : Args.t)
        (self : FileListProcessor) :
  Init.__init__ fs a = inr self ->
  full_frame_mode self = false /\
  F64.le_zero (image_area_coverage_factor self) = false /\
  (field_of_view self = 0 \/ field_of_view self mod 2 = 1) /\
  (0 < field_of_view self -> field_of_view self = 2 * radius_of_view self + 1) /\
  (field_of_view self <= 0 -> radius_of_view self = 0) /\
  (no_reference self = true <-> Args.filelist_reference_data a = RefAbsent) /\
  filelist self = Init.datasetFiles a /\
  image_loading_fn self = load_composite fs.
Proof.
  unfold Init.__init__.
  destruct (F64.le_zero (Args.image_area_coverage_factor a)) eqn:Hcf; [discriminate|].
  assert (Hmain : forall filters,
             (geo <- Init.probe_and_geometry fs a ;;
              (let fov := Args.field_of_view a in
               if (fov mod 2 =? 0) && negb (fov =? 0)
               then raise (ValueError "field_of_view must be odd or 0")
               else
                 _ <- (if Init.geo_full_frame_mode geo
                       then match Init.geo_fullframe_ref_shape geo with
                            | Some shape => ok shape
                            | None => raise (AttributeError "fullframe_ref_shape")
                            end
                       else ok [Init.geo_patchSize geo; Init.geo_patchSize geo;
                                Init.geo_raw_depth geo + Init.geo_reference_depth geo]) ;;
                 loading_fn <- Init._setup_load_raw_images_from_filenames fs a ;;
                 image_loading_fn <-
                   Init._create_data_pipeline (Init.geo_full_frame_mode geo) loading_fn ;;
                 ok {| filelist := Init.datasetFiles a;
                       nbEpoch := Args.nbEpoch a;
                       shuffle_samples := Args.shuffle_samples a;
                       patch_ratio_vs_input := Init.geo_patch_ratio_vs_input geo;
                       max_patches_per_image := Init.geo_max_patches_per_image geo;
                       image_area_coverage_factor := Args.image_area_coverage_factor a;
                       num_reader_threads := Args.num_reader_threads a;
                       apply_random_flip_left_right := Args.apply_random_flip_left_right a;
                       apply_random_flip_up_down := Args.apply_random_flip_up_down a;
                       apply_random_rot90 := Args.apply_random_rot90 a;
                       apply_random_brightness := Args.apply_random_brightness a;
                       apply_random_saturation := Args.apply_random_saturation a;
                       apply_random_contrast := Args.apply_random_contrast a;
                       apply_whitening := Args.apply_whitening a;
                       batch_size := Args.batch_size a;
                       balance_classes_distribution := Args.balance_classes_distribution a;
                       classes_entropy_threshold := Args.classes_entropy_threshold a;
                       field_of_view := fov;
                       manage_nan_values := Args.manage_nan_values a;
                       additionnal_filters := filters;
                       crops_postprocess := Args.crops_postprocess a;
                       out_dtype := Args.dtype a;
                       master_seed := Args.seed a;
                       no_reference := Init.geo_no_reference geo;
                       single_image_raw_depth := Init.geo_raw_depth geo;
                       single_image_reference_depth := Init.geo_reference_depth geo;
                       radius_of_view := Init.geo_radius_of_view geo;
                       patchSize := Init.geo_patchSize geo;
                       full_frame_mode := Init.geo_full_frame_mode geo;
                       image_loading_fn := image_loading_fn |})) = inr self ->
             full_frame_mode self = false /\
             F64.le_zero (image_area_coverage_factor self) = false /\
             (field_of_view self = 0 \/ field_of_view self mod 2 = 1) /\
             (0 < field_of_view self -> field_of_view self = 2 * radius_of_view self + 1) /\
             (field_of_view self <= 0 -> radius_of_view self = 0) /\
             (no_reference self = true <-> Args.filelist_reference_data a = RefAbsent) /\
             filelist self = Init.datasetFiles a /\
             image_loading_fn self = load_composite fs).
  { intros filters.
    destruct (Init.probe_and_geometry fs a) as [e|geo] eqn:Hgeo; [discriminate|].
    cbn [bind].
    destruct ((Args.field_of_view a mod 2 =? 0) && negb (Args.field_of_view a =? 0))
      eqn:Hfov; [discriminate|].
    destruct (Init.geo_full_frame_mode geo) eqn:Hff.
    - destruct (Init.geo_fullframe_ref_shape geo); [|discriminate]. cbn [bind].
      destruct (Init._setup_load_raw_images_from_filenames fs a); discriminate.
    - cbn [bind ok].
      destruct (Init._setup_load_raw_images_from_filenames fs a) as [e|lf] eqn:Hl;
        [discriminate|]. cbn [bind].
      unfold Init._create_data_pipeline.
      destruct lf as [f|]; [|discriminate]. cbn [bind ok].
      intros H; inversion H; subst; clear H.
      cbn [full_frame_mode image_area_coverage_factor field_of_view radius_of_view
           no_reference filelist image_loading_fn].
      destruct (probe_geometry_facts fs a geo Hgeo) as [Hr [Hnr _]].
      assert (Hf : f = load_composite fs).
      { unfold Init._setup_load_raw_images_from_filenames in Hl.
        destruct (Args.filelist_reference_data a);
          destruct (Args.use_alternative_imread a);
          repeat match type of Hl with
                 | (if ?c then _ else _) = _ => destruct c
                 end; inversion Hl; reflexivity. }
      apply andb_false_iff in Hfov.
      assert (Hparity : Args.field_of_view a = 0 \/ Args.field_of_view a mod 2 = 1).
      { destruct Hfov as [Hm|Hz].
        - right. apply Z.eqb_neq in Hm.
          pose proof (Z.mod_pos_bound (Args.field_of_view a) 2 ltac:(lia)). lia.
        - left. apply negb_false_iff in Hz. now apply Z.eqb_eq. }
      repeat split; try assumption; try (apply Hnr); try reflexivity.
      + intros Hpos. rewrite Hr.
        destruct (0 <? Args.field_of_view a) eqn:E; [|apply Z.ltb_ge in E; lia].
        destruct Hparity as [Hz|Hodd]; [lia|]. Z.div_mod_to_equations. lia.
      + intros Hneg. rewrite Hr.
        destruct (0 <? Args.field_of_view a) eqn:E; [apply Z.ltb_lt in E; lia|reflexivity]. }
  destruct (Args.additionnal_filters a); cbn iota; try discriminate; apply Hmain.
Qed.

Lemma constructed_instance_invariants_witness :
  full_frame_mode Fixtures.rot90_self = false /\
  F64.le_zero (image_area_coverage_factor Fixtures.rot90_self) = false /\
  (field_of_view Fixtures.rot90_self = 0 \/ field_of_view Fixtures.rot90_self mod 2 = 1) /\
  (0 < field_of_view Fixtures.rot90_self ->
   field_of_view Fixtures.rot90_self = 2 * radius_of_view Fixtures.rot90_self + 1) /\
  (field_of_view Fixtures.rot90_self <= 0 -> radius_of_view Fixtures.rot90_self = 0) /\
  (no_reference Fixtures.rot90_self = true <->
   Args.filelist_reference_data Fixtures.rot90_args = RefAbsent) /\
  filelist Fixtures.rot90_self = Init.datasetFiles Fixtures.rot90_args /\
  image_loading_fn Fixtures.rot90_self = load_composite Fixtures.fs4.
Proof.
  apply (constructed_instance_invariants Fixtures.fs4 Fixtures.rot90_args).
  reflexivity.
Defined.

(** X5.  Construction succeeds only with a reader the loader setup knows:
    [use_alternative_imread] must be 'opencv', 'gdal' or 'rasterio', or else
    [None] together with a list of reference files.  With the default value
    [False] no instance is ever returned. *)
Theorem construction_needs_reader (fs : file_system) (a : Args.t)
        (self : FileListProcessor) :
  Init.__init__ fs a = inr self ->
  Init.is_backend (Args.use_alternative_imread a) "opencv"
  || Init.is_backend (Args.use_alternative_imread a) "gdal"
  || Init.is_backend (Args.use_alternative_imread a) "rasterio" = true \/
  (Args.use_alternative_imread a = ImreadNone /\
   exists refs, Args.filelist_reference_data a = RefFiles refs).
Proof.
  unfold Init.__init__.
  destruct (F64.le_zero _); [discriminate|].
  assert (Hload : forall f,
             Init._setup_load_raw_images_from_filenames fs a = inr (Some f) ->
             Init.is_backend (Args.use_alternative_imread a) "opencv"
             || Init.is_backend (Args.use_alternative_imread a) "gdal"
             || Init.is_backend (Args.use_alternative_imread a) "rasterio" = true \/
             (Args.use_alternative_imread a = ImreadNone /\
              exists refs, Args.filelist_reference_data a = RefFiles refs)).
  { intros f. unfold Init._setup_load_raw_images_from_filenames.
    destruct (Init.is_backend (Args.use_alternative_imread a) "opencv"
              || Init.is_backend (Args.use_alternative_imread a) "gdal"
              || Init.is_backend (Args.use_alternative_imread a) "rasterio");
      [now left|].
    destruct (Args.filelist_reference_data a) as [|refs|]; try discriminate.
    destruct (Args.use_alternative_imread a); try discriminate.
    intros _. right. split; [reflexivity|]. now exists refs. }
  destruct (Args.additionnal_filters a); cbn iota; try discriminate;
    (destruct (Init.probe_and_geometry fs a) as [e|geo]; [discriminate|]; cbn [bind];
     destruct ((Args.field_of_view a mod 2 =? 0) && negb (Args.field_of_view a =? 0));
     [discriminate|];
     match goal with
     | |- bind ?m _ = _ -> _ => destruct m; [discriminate|]; cbn [bind]
     end;
     destruct (Init._setup_load_raw_images_from_filenames fs a) as [e|[f|]] eqn:Hl;
     [discriminate| |];
     cbn [bind]; unfold Init._create_data_pipeline;
     destruct (Init.geo_full_frame_mode geo); try discriminate;
     intros _; now apply (Hload f)).
Qed.

Lemma construction_needs_reader_witness :
  Init.is_backend (Args.use_alternative_imread Fixtures.rot90_args) "opencv"
  || Init.is_backend (Args.use_alternative_imread Fixtures.rot90_args) "gdal"
  || Init.is_backend (Args.use_alternative_imread Fixtures.rot90_args) "rasterio" = true \/
  (Args.use_alternative_imread Fixtures.rot90_args = ImreadNone /\
   exists refs, Args.filelist_reference_data Fixtures.rot90_args = RefFiles refs).
Proof.
  apply (construction_needs_reader Fixtures.fs4 Fixtures.rot90_args Fixtures.rot90_self).
  reflexivity.
Defined.

(** ** The regular grid and the edges of the planner *)

Lemma tf_range_grid (limit delta : Z) :
  0 < delta -> 0 <= limit ->
  tf_range 0 limit delta
  = inr (map (fun i => Z.of_nat i * delta)
             (seq 0 (Z.to_nat ((limit + delta - 1) / delta)))).
Proof.
  intros Hd Hl. unfold tf_range.
  destruct (delta =? 0) eqn:E0; [apply Z.eqb_eq in E0; lia|].
  destruct (0 <? delta) eqn:E1; [|apply Z.ltb_ge in E1; lia].
  destruct (0 <=? limit) eqn:E2; [|apply Z.leb_gt in E2; lia].
  unfold ok. rewrite Z.sub_0_r. reflexivity.
Qed.

Lemma flat_map_length_const {A B : Type} (f : A -> list B) (l : list A) (n : nat) :
  (forall a, length (f a) = n) -> length (flat_map f l) = (length l * n)%nat.
Proof.
  intros Hf. induction l as [|a l IH]; [reflexivity|].
  cbn [flat_map length]. rewrite length_app, Hf, IH. lia.
Qed.

(** X6.  In grid mode, with a positive stride [patchSize - 2 * radius_of_view]
    and a patch that fits, the planner returns exactly the lattice points
    [(i * stride, j * stride)] with [i * stride < H - patchSize] and
    [j * stride < W - patchSize], column after column, that is
    [ceil((H - patchSize) / stride) * ceil((W - patchSize) / stride)] boxes;
    it draws nothing from the generator. *)
Theorem grid_boxes_are_the_lattice (self : FileListProcessor) (g : global_generator)
        (H W : Z) :
  shuffle_samples self = false ->
  0 < patchSize self - 2 * radius_of_view self ->
  0 < patchSize self ->
  patchSize self <= H <= Int32.max_signed ->
  patchSize self <= W <= Int32.max_signed ->
  Planner.prepare_crops_bbox self g H W
  = inr (flat_map
           (fun j => map (fun i => (Z.of_nat i * (patchSize self - 2 * radius_of_view self),
                                    Z.of_nat j * (patchSize self - 2 * radius_of_view self)))
                         (seq 0 (Z.to_nat ((H - patchSize self
                                            + (patchSize self - 2 * radius_of_view self) - 1)
                                           / (patchSize self - 2 * radius_of_view self)))))
           (seq 0 (Z.to_nat ((W - patchSize self
                              + (patchSize self - 2 * radius_of_view self) - 1)
                             / (patchSize self - 2 * radius_of_view self)))),
         g) /\
  forall boxes g',
    Planner.prepare_crops_bbox self g H W = inr (boxes, g') ->
    length boxes
    = (Z.to_nat ((H - patchSize self + (patchSize self - 2 * radius_of_view self) - 1)
                 / (patchSize self - 2 * radius_of_view self))
       * Z.to_nat ((W - patchSize self + (patchSize self - 2 * radius_of_view self) - 1)
                   / (patchSize self - 2 * radius_of_view self)))%nat.
Proof.
  intros Hsh Hstride Hps HH HW.
  set (stride := patchSize self - 2 * radius_of_view self) in *.
  assert (Hrun : Planner.prepare_crops_bbox self g H W
                 = inr (flat_map
                          (fun j => map (fun i => (Z.of_nat i * stride, Z.of_nat j * stride))
                                        (seq 0 (Z.to_nat ((H - patchSize self + stride - 1)
                                                          / stride))))
                          (seq 0 (Z.to_nat ((W - patchSize self + stride - 1) / stride))),
                        g)).
  { unfold Planner.prepare_crops_bbox. rewrite Hsh.
    rewrite !wrap32_small by (unfold Int32.min_signed, Int32.max_signed in *; lia).
    fold stride.
    rewrite (tf_range_grid (H - patchSize self) stride) by lia. cbn [bind].
    rewrite (tf_range_grid (W - patchSize self) stride) by lia. cbn [bind].
    unfold ok. do 2 f_equal.
    rewrite flat_map_concat_map, map_map, <- flat_map_concat_map.
    apply flat_map_ext. intros j. now rewrite map_map. }
  split; [exact Hrun|].
  intros boxes g' Hrun'. rewrite Hrun in Hrun'. inversion Hrun'; subst.
  rewrite (flat_map_length_const _ _
             (Z.to_nat ((H - patchSize self + stride - 1) / stride))).
  - rewrite length_seq. lia.
  - intros j. now rewrite length_map, length_seq.
Qed.

Lemma grid_boxes_are_the_lattice_witness :
  Planner.prepare_crops_bbox Fixtures.grid_self Fixtures.one_generator 64 40
  = inr ([(0, 0); (16, 0); (32, 0); (0, 16); (16, 16); (32, 16)], Fixtures.one_generator).
Proof.
  apply (grid_boxes_are_the_lattice Fixtures.grid_self Fixtures.one_generator 64 40).
  - reflexivity.
  - reflexivity.
  - reflexivity.
  - split; discriminate.
  - split; discriminate.
Defined.

(** X7.  An image one of whose sides equals the patch size never yields a
    crop: whenever the planner returns, in grid mode or in random mode, it
    returns no box (and in random mode it raises as soon as at least one
    patch is requested). *)
Theorem exact_fit_yields_no_box (self : FileListProcessor) (g g' : global_generator)
        (H W : Z) (boxes : list (Z * Z)) :
  H = patchSize self \/ W = patchSize self ->
  Planner.prepare_crops_bbox self g H W = inr (boxes, g') ->
  boxes = [] /\
  (shuffle_samples self = true ->
   Planner.saturate_number_of_patches self H W = 0).
Proof.
  intros Hfit. unfold Planner.prepare_crops_bbox.
  assert (Hzero : Int32.wrap32 0 = 0) by reflexivity.
  assert (Hu : forall g0 n l g1,
             random_uniform_int g0 n 0 0 = inr (l, g1) -> n = 0 /\ l = []).
  { intros g0 n l g1. unfold random_uniform_int.
    destruct (n <? 0); [discriminate|].
    destruct (n =? 0) eqn:E; [|discriminate].
    apply Z.eqb_eq in E. intros Hr; inversion Hr; subst. now split. }
  assert (Hr0 : forall d l, tf_range 0 0 d = inr l -> l = []).
  { intros d l. unfold tf_range.
    destruct (d =? 0) eqn:E0; [discriminate|]. apply Z.eqb_neq in E0.
    destruct (0 <? d) eqn:E1.
    - apply Z.ltb_lt in E1. cbn [Z.leb Z.compare].
      replace ((0 - 0 + d - 1) / d) with 0 by (symmetry; apply Z.div_small; lia).
      intros Hr; now inversion Hr.
    - apply Z.ltb_ge in E1. cbn [Z.leb Z.compare].
      replace ((0 - 0 - d - 1) / - d) with 0 by (symmetry; apply Z.div_small; lia).
      intros Hr; now inversion Hr. }
  destruct (shuffle_samples self).
  - set (n := Planner.saturate_number_of_patches self H W).
    destruct (random_uniform_int g n 0 _) as [e|[tops g1]] eqn:Ht; [discriminate|].
    cbn [bind].
    destruct (random_uniform_int g1 n 0 _) as [e|[lefts g2]] eqn:Hl; [discriminate|].
    cbn [bind]. intros Hrun; inversion Hrun; subst; clear Hrun.
    destruct Hfit as [Hfit|Hfit]; rewrite Hfit, Z.sub_diag, Hzero in *.
    + destruct (Hu _ _ _ _ Ht) as [Hn ->]. split; [reflexivity|]. intros _. exact Hn.
    + destruct (Hu _ _ _ _ Hl) as [Hn ->]. split; [|intros _; exact Hn].
      now destruct tops.
  - destruct (tf_range 0 (Int32.wrap32 (H - patchSize self)) _) as [e|tops] eqn:Ht;
      [discriminate|]. cbn [bind].
    destruct (tf_range 0 (Int32.wrap32 (W - patchSize self)) _) as [e|lefts] eqn:Hl;
      [discriminate|]. cbn [bind]. intros Hrun; inversion Hrun; subst; clear Hrun.
    split; [|discriminate].
    destruct Hfit as [Hfit|Hfit]; rewrite Hfit, Z.sub_diag, Hzero in *.
    + rewrite (Hr0 _ _ Ht). generalize lefts. clear.
      intros lefts. induction lefts as [|l ls IH]; [reflexivity|exact IH].
    + now rewrite (Hr0 _ _ Hl).
Qed.

Lemma exact_fit_yields_no_box_witness :
  @nil (Z * Z) = [] /\
  (shuffle_samples Fixtures.grid_self = true ->
   Planner.saturate_number_of_patches Fixtures.grid_self 16 64 = 0).
Proof.
  apply (exact_fit_yields_no_box Fixtures.grid_self Fixtures.zero_generator
                                 Fixtures.zero_generator 16 64 []).
  - left. reflexivity.
  - reflexivity.
Defined.

(** X8.  In grid mode a stride that is not positive, that is a patch no
    larger than twice the radius of view, makes the planner raise on every
    image larger than the patch. *)
Theorem grid_needs_positive_stride (self : FileListProcessor) (g : global_generator)
        (H W : Z) :
  shuffle_samples self = false ->
  patchSize self - 2 * radius_of_view self <= 0 ->
  0 <= patchSize self ->
  patchSize self < H <= Int32.max_signed ->
  exists msg, Planner.prepare_crops_bbox self g H W = inl (InvalidArgumentError msg).
Proof.
  intros Hsh Hstride Hps HH. unfold Planner.prepare_crops_bbox. rewrite Hsh.
  rewrite (wrap32_small (H - patchSize self))
    by (unfold Int32.min_signed, Int32.max_signed in *; lia).
  unfold tf_range at 1.
  destruct (patchSize self - 2 * radius_of_view self =? 0) eqn:E0;
    [eexists; reflexivity|].
  destruct (0 <? patchSize self - 2 * radius_of_view self) eqn:E1;
    [apply Z.ltb_lt in E1; lia|].
  destruct (H - patchSize self <=? 0) eqn:E2; [apply Z.leb_le in E2; lia|].
  eexists; reflexivity.
Qed.

Lemma grid_needs_positive_stride_witness :
  exists msg,
    Planner.prepare_crops_bbox
      (Fixtures.constructed (Init.__init__ Fixtures.fs64
         (Fixtures.args_with RefLastChannel false (F64.of_dyadic 1 (-2)) (F64.of_dyadic 2 0)
                             17 None FiltersDefault false false)))
      Fixtures.zero_generator 64 64
    = inl (InvalidArgumentError msg).
Proof.
  apply (grid_needs_positive_stride
           (Fixtures.constructed (Init.__init__ Fixtures.fs64
              (Fixtures.args_with RefLastChannel false (F64.of_dyadic 1 (-2))
                                  (F64.of_dyadic 2 0) 17 None FiltersDefault false false)))
           Fixtures.zero_generator 64 64).
  - reflexivity.
  - discriminate.
  - discriminate.
  - split; [reflexivity|discriminate].
Defined.

(** ** The assembled stream *)

Lemma steps_left_rotate {A : Type} (x : option (list A)) (others : list (option (list A))) :
  length (filter Cycle.is_open (others ++ [x]))
  = length (filter Cycle.is_open (x :: others)) /\
  length (others ++ [x]) = length (x :: others).
Proof.
  rewrite filter_app, !length_app. cbn [filter length].
  destruct (Cycle.is_open x); cbn [length]; lia.
Qed.

Lemma pending_rotate {A : Type} (x : option (list A)) (others : list (option (list A)))
      (inputs : list (list A)) :
  Permutation (Cycle.pending (others ++ [x]) inputs) (Cycle.pending (x :: others) inputs).
Proof.
  unfold Cycle.pending. rewrite flat_map_app. cbn [flat_map]. rewrite app_nil_r.
  apply Permutation_app_tail. apply Permutation_app_comm.
Qed.

Lemma interleave_loop_complete {A : Type} (fuel : nat) :
  forall (slots : list (option (list A))) (inputs : list (list A)),
    (Cycle.steps_left slots inputs < fuel)%nat ->
    (slots = [] -> inputs = []) ->
    Permutation (Stream.interleave_loop fuel slots inputs) (Cycle.pending slots inputs).
Proof.
  induction fuel as [|fuel IH]; intros slots inputs Hfuel Hne; [lia|].
  cbn [Stream.interleave_loop].
  destruct slots as [|[[|x rest]|] others].
  - rewrite (Hne eq_refl). reflexivity.
  - (* an exhausted element *)
    destruct inputs as [|d inputs].
    + refine (IH others [] _ (fun _ => eq_refl)).
      unfold Cycle.steps_left, Cycle.pending in *. cbn [flat_map Cycle.slot_items app
        filter Cycle.is_open length] in *. lia.
    + etransitivity; [apply IH|].
      * destruct (steps_left_rotate (@None (list A)) others) as [H1 H2].
        pose proof (Permutation_length (pending_rotate (@None (list A)) others (d :: inputs))).
        unfold Cycle.steps_left in *. rewrite H1, H2.
        unfold Cycle.pending in *. cbn [flat_map Cycle.slot_items app filter Cycle.is_open
          length] in *. lia.
      * intros Habs. destruct others; discriminate.
      * etransitivity; [apply pending_rotate|]. reflexivity.
  - (* an element with something left *)
    etransitivity; [apply perm_skip, IH|].
    + destruct (steps_left_rotate (Some rest) others) as [H1 H2].
      pose proof (Permutation_length (pending_rotate (Some rest) others inputs)).
      unfold Cycle.steps_left in *. rewrite H1, H2.
      unfold Cycle.pending in *. cbn [flat_map Cycle.slot_items app filter Cycle.is_open
        length] in *. rewrite !length_app in *. cbn [length] in *. lia.
    + intros Habs. destruct others; discriminate.
    + etransitivity; [apply perm_skip, pending_rotate|]. reflexivity.
  - (* an empty slot *)
    destruct inputs as [|d inputs].
    + refine (IH others [] _ (fun _ => eq_refl)).
      unfold Cycle.steps_left, Cycle.pending in *. cbn [flat_map Cycle.slot_items app
        filter Cycle.is_open length] in *. lia.
    + etransitivity; [apply IH|].
      * unfold Cycle.steps_left, Cycle.pending in *. cbn [flat_map Cycle.slot_items app
          filter Cycle.is_open length concat] in *. rewrite !length_app in *.
        cbn [length] in *. lia.
      * discriminate.
      * unfold Cycle.pending. cbn [flat_map Cycle.slot_items concat app].
        rewrite !app_assoc. apply Permutation_app_tail. apply Permutation_app_comm.
Qed.

Lemma total_length_concat {A : Type} (ls : list (list A)) :
  Stream.total_length ls = length (concat ls).
Proof.
  induction ls as [|l ls IH]; [reflexivity|].
  cbn [Stream.total_length fold_right concat]. rewrite length_app.
  unfold Stream.total_length in IH. now rewrite IH.
Qed.

Lemma interleave_loop_all {A : Type} (cycle_length : nat) (inputs : list (list A)) :
  (1 <= cycle_length)%nat ->
  Permutation (Stream.interleave cycle_length inputs) (concat inputs).
Proof.
  intros Hc. unfold Stream.interleave.
  assert (Hflat : forall n, flat_map Cycle.slot_items (repeat (@None (list A)) n) = [])
    by (induction n; [reflexivity|assumption]).
  assert (Hopen : forall n, filter Cycle.is_open (repeat (@None (list A)) n) = [])
    by (induction n; [reflexivity|assumption]).
  etransitivity; [apply interleave_loop_complete|].
  - unfold Cycle.steps_left, Cycle.pending.
    rewrite Hflat, Hopen, repeat_length, total_length_concat. cbn [app length]. lia.
  - destruct cycle_length; [lia|discriminate].
  - unfold Cycle.pending. now rewrite Hflat.
Qed.

(** X9.  The interleave over at least one reader slot loses nothing and
    repeats nothing: the interleaved stream is a permutation of the crops of
    all the per-file datasets. *)
Theorem interleave_keeps_every_crop {A : Type} (cycle_length : nat)
        (inputs : list (list A)) :
  (1 <= cycle_length)%nat ->
  Permutation (Stream.interleave cycle_length inputs) (concat inputs).
Proof.
  exact (interleave_loop_all cycle_length inputs).
Qed.

Lemma interleave_keeps_every_crop_witness :
  Permutation (Stream.interleave 2 [[1; 2; 3]; [4]; [5; 6]]) [1; 2; 3; 4; 5; 6].
Proof.
  apply (interleave_keeps_every_crop 2 [[1; 2; 3]; [4]; [5; 6]]). lia.
Defined.

Lemma firstn_then_more {A : Type} (n m : nat) (l : list A) :
  firstn n l ++ firstn m (skipn n l) = firstn (n + m) l.
Proof.
  rewrite <- (firstn_skipn n (firstn (n + m) l)).
  rewrite firstn_firstn, Nat.min_l by lia.
  now rewrite firstn_skipn_comm.
Qed.

Lemma batch_loop_spec {A : Type} (n : nat) :
  (0 < n)%nat ->
  forall (fuel : nat) (l : list A),
    (length l <= fuel)%nat ->
    Forall (fun b => length b = n) (Stream.batch_loop fuel n l) /\
    concat (Stream.batch_loop fuel n l) = firstn (n * (length l / n)) l /\
    length (Stream.batch_loop fuel n l) = (length l / n)%nat.
Proof.
  intros Hn. induction fuel as [|fuel IH]; intros l Hl.
  - assert (l = []) by (destruct l; [reflexivity|simpl in Hl; lia]). subst.
    cbn [Stream.batch_loop concat length]. rewrite Nat.Div0.div_0_l, firstn_nil.
    split; [apply Forall_nil|split; reflexivity].
  - cbn [Stream.batch_loop]. destruct (n <=? length l)%nat eqn:E.
    + apply Nat.leb_le in E.
      destruct (IH (skipn n l)) as [H1 [H2 H3]]; [rewrite length_skipn; lia|].
      assert (Hdiv : (length l / n = 1 + (length l - n) / n)%nat).
      { replace (length l) with ((length l - n) + 1 * n)%nat at 1 by lia.
        rewrite Nat.div_add by lia. lia. }
      rewrite length_skipn in *. split; [|split].
      * constructor; [|assumption]. rewrite length_firstn. lia.
      * cbn [concat]. rewrite H2, firstn_then_more. f_equal. rewrite Hdiv. lia.
      * cbn [length]. rewrite H3, Hdiv. lia.
    + apply Nat.leb_gt in E. rewrite Nat.div_small by lia.
      rewrite Nat.mul_0_r. cbn [firstn concat length].
      split; [apply Forall_nil|split; reflexivity].
Qed.

Section RunShape.

Context {ops : ImageOps}.



End RunShape.


(** ** Shapes along the pipeline *)

Lemma slice_list_length {A : Type} (b n : nat) (l : list A) :
  (b + n <= length l)%nat -> length (Tensor.slice_list b n l) = n.
Proof.
  intros H. unfold Tensor.slice_list. rewrite length_firstn, length_skipn. lia.
Qed.

Lemma slice_list_incl {A : Type} (b n : nat) (l : list A) (x : A) :
  In x (Tensor.slice_list b n l) -> In x l.
Proof.
  unfold Tensor.slice_list. intros H.
  rewrite <- (firstn_skipn b l). apply in_or_app. right.
  rewrite <- (firstn_skipn n (skipn b l)). apply in_or_app. now left.
Qed.

Lemma crop_to_bounding_box_shape (img crop : image) (top left th tw : Z) (h w c : nat) :
  Tensor.has_shape h w c img ->
  Tensor.crop_to_bounding_box img top left th tw = inr crop ->
  Tensor.has_shape (Z.to_nat th) (Z.to_nat tw) c crop.
Proof.
  intros [Hlen Hrows]. unfold Tensor.crop_to_bounding_box.
  destruct (top <? 0) eqn:E1; [discriminate|].
  destruct (left <? 0) eqn:E2; [discriminate|].
  destruct (tw <=? 0) eqn:E3; [discriminate|].
  destruct (th <=? 0) eqn:E4; [discriminate|].
  destruct (Tensor.width img <? tw + left) eqn:E5; [discriminate|].
  destruct (Tensor.height img <? th + top) eqn:E6; [discriminate|].
  intros H. injection H as <-.
  apply Z.ltb_ge in E1, E2, E5, E6. apply Z.leb_gt in E3, E4.
  unfold Tensor.height in E6.
  assert (Hw : Tensor.width img = Z.of_nat w).
  { destruct img as [|row rest]; [simpl in E6; lia|].
    inversion Hrows as [|? ? [Hr _] _]; subst. reflexivity. }
  rewrite Hw in E5.
  split.
  - rewrite length_map. apply slice_list_length. lia.
  - rewrite Forall_forall in *. intros row Hrow.
    apply in_map_iff in Hrow as [r [<- Hr]].
    destruct (Hrows r (slice_list_incl _ _ _ _ Hr)) as [Hrw Hrc].
    split; [apply slice_list_length; lia|].
    rewrite Forall_forall in *. intros px Hpx. apply Hrc.
    exact (slice_list_incl _ _ _ _ Hpx).
Qed.

Lemma mapM_Forall {A B : Type} (f : A -> result B) (P : B -> Prop) (l : list A) :
  (forall a b, In a l -> f a = inr b -> P b) ->
  forall bs, Stream.mapM f l = inr bs -> Forall P bs.
Proof.
  induction l as [|a l IH]; intros Hf bs Hbs; cbn [Stream.mapM] in Hbs.
  - injection Hbs as <-. constructor.
  - destruct (f a) as [e|b] eqn:Ea; [discriminate|]. cbn [bind] in Hbs.
    destruct (Stream.mapM f l) as [e|bs'] eqn:El; [discriminate|]. cbn [bind] in Hbs.
    injection Hbs as <-. constructor.
    + apply (Hf a b); [now left|exact Ea].
    + apply IH; [|reflexivity]. intros a' b' Hin. apply Hf. now right.
Qed.

Lemma crops_dataset_Forall_shape (self : FileListProcessor) (g g' : global_generator)
      (image_filename : string) (crops : list image) (c : nat) :
  (forall img, image_loading_fn self image_filename = inr img ->
               exists h w, Tensor.has_shape h w c img) ->
  Stream.crops_dataset self g image_filename = inr (crops, g') ->
  Forall (Tensor.has_shape (Z.to_nat (patchSize self)) (Z.to_nat (patchSize self)) c) crops.
Proof.
  intros Himg. unfold Stream.crops_dataset.
  destruct (image_loading_fn self image_filename) as [e|img]; [discriminate|].
  destruct (Himg img eq_refl) as [h [w Hshape]]. cbn [bind].
  destruct (Planner.prepare_crops_bbox self g (Tensor.height img) (Tensor.width img))
    as [e|[boxes g1]]; [discriminate|]. cbn [bind].
  destruct (Stream.mapM (Planner.get_crop self img) boxes) as [e|raw] eqn:Hm; [discriminate|].
  cbn [bind]. intros H. injection H as <- <-.
  assert (Hraw : Forall (Tensor.has_shape (Z.to_nat (patchSize self))
                                          (Z.to_nat (patchSize self)) c) raw).
  { apply (mapM_Forall _ _ boxes) with (2 := Hm). intros box crop _ Hcrop.
    exact (crop_to_bounding_box_shape _ _ _ _ _ _ _ _ _ Hshape Hcrop). }
  rewrite Forall_forall in *. intros crop Hin. apply Hraw.
  now apply filter_In in Hin.
Qed.

(** X11.  Every crop a per-image dataset emits is a full patch: whatever
    the sampling mode, the filters and the size of the image read, the crops
    of [crops_dataset] have height and width [patchSize] and the channel
    depth of the image. *)
Theorem crops_are_full_patches (self : FileListProcessor) (g g' : global_generator)
        (image_filename : string) (img : image) (crops : list image) (h w c : nat) :
  image_loading_fn self image_filename = inr img ->
  Tensor.has_shape h w c img ->
  Stream.crops_dataset self g image_filename = inr (crops, g') ->
  Forall (Tensor.has_shape (Z.to_nat (patchSize self)) (Z.to_nat (patchSize self)) c) crops.
Proof.
  intros Hload Hshape. apply crops_dataset_Forall_shape.
  intros img' Himg'. rewrite Hload in Himg'. injection Himg' as <-. now exists h, w.
Qed.

Lemma crops_are_full_patches_witness :
  Forall (Tensor.has_shape 16 16 4) (fst CaseRuns.grid_crops).
Proof.
  apply (crops_are_full_patches Fixtures.grid_self Fixtures.zero_generator
           (snd CaseRuns.grid_crops) "a.tif"
           (Fixtures.constant_image 64 64 4 (Fixtures.px 0))
           (fst CaseRuns.grid_crops) 64 64 4).
  - reflexivity.
  - split; [reflexivity|]. unfold Fixtures.constant_image.
    apply Forall_forall. intros row Hrow. apply repeat_spec in Hrow. subst row.
    split; [apply repeat_length|].
    apply Forall_forall. intros px Hpx. apply repeat_spec in Hpx. subst px.
    apply repeat_length.
  - vm_compute. reflexivity.
Defined.

Lemma interleave_incl {A : Type} (cycle_length : nat) (inputs : list (list A)) (x : A) :
  In x (Stream.interleave cycle_length inputs) -> In x (concat inputs).
Proof.
  destruct cycle_length as [|c].
  - unfold Stream.interleave. rewrite Nat.add_1_r. cbn [repeat Stream.interleave_loop].
    intros [].
  - apply Permutation_in, interleave_loop_all. lia.
Qed.

Lemma has_shape_concat_channels (h w a b : nat) (x y : image) :
  Tensor.has_shape h w a x -> Tensor.has_shape h w b y ->
  Tensor.has_shape h w (a + b) (Tensor.concat_channels x y).
Proof.
  unfold Tensor.has_shape. intros [Hx Hxr] [Hy Hyr].
  rewrite Forall_forall in Hxr, Hyr. unfold Tensor.concat_channels.
  split; [rewrite length_map, length_combine; lia|].
  apply Forall_forall. intros row Hrow.
  apply in_map_iff in Hrow as [[rx ry] [<- Hin]].
  destruct (Hxr rx (in_combine_l _ _ _ _ Hin)) as [Hwx Hcx].
  destruct (Hyr ry (in_combine_r _ _ _ _ Hin)) as [Hwy Hcy].
  rewrite Forall_forall in Hcx, Hcy.
  split; [rewrite length_map, length_combine; lia|].
  apply Forall_forall. intros px Hpx.
  apply in_map_iff in Hpx as [[p q] [<- Hpin]].
  rewrite length_app, (Hcx p (in_combine_l _ _ _ _ Hpin)),
    (Hcy q (in_combine_r _ _ _ _ Hpin)). reflexivity.
Qed.

Lemma has_shape_rot90_square (n c : nat) (img : image) (k : Z) :
  (0 < n)%nat ->
  Tensor.has_shape n n c img -> Tensor.has_shape n n c (Tensor.rot90 img k).
Proof.
  intros Hn Himg.
  assert (H1 : Tensor.has_shape n n c (Tensor.transpose (Tensor.flip_left_right img)))
    by (apply has_shape_transpose; [assumption|]; now apply has_shape_flip_left_right).
  assert (H2 : Tensor.has_shape n n c (Tensor.flip_up_down (Tensor.flip_left_right img)))
    by (apply has_shape_flip_up_down; now apply has_shape_flip_left_right).
  assert (H3 : Tensor.has_shape n n c (Tensor.flip_left_right (Tensor.transpose img)))
    by (apply has_shape_flip_left_right; now apply has_shape_transpose).
  unfold Tensor.rot90.
  destruct (k mod 4) as [|[[|?|]|[|?|]|]|?];
    first [exact Himg | exact H1 | exact H2 | exact H3].
Qed.

Section SampleShape.

Context {ops : ImageOps} {laws : ShapePreserving ops}.

Lemma stage_a_square (self : FileListProcessor) (s : seed) (n c : nat) :
  (0 < n)%nat ->
  Forall (fun t : Transforms.transform =>
            forall img g, Tensor.has_shape n n c img ->
                          Tensor.has_shape n n c (fst (t img s g)))
         (Transforms.image_label_transforms self).
Proof.
  intros Hn. unfold Transforms.image_label_transforms.
  apply Forall_app; split; [|apply Forall_app; split; [|apply Forall_app; split]];
    apply Forall_when; intros img g Himg.
  - unfold Transforms.stateless, Transforms.replace_nans_by_zeros; simpl.
    now apply has_shape_map_pixels.
  - unfold Transforms.stateless, Transforms.stateless_random_flip_left_right; simpl.
    destruct (mirror_cond s); [now apply has_shape_flip_left_right|assumption].
  - unfold Transforms.stateless, Transforms.stateless_random_flip_up_down; simpl.
    destruct (mirror_cond s); [now apply has_shape_flip_up_down|assumption].
  - unfold Transforms.random_rot90; simpl. now apply has_shape_rot90_square.
Qed.

Lemma image_transform_square (self : FileListProcessor) (rng : philox)
      (g : global_generator) (crop : image) (n c : nat) :
  (0 < n)%nat ->
  crops_postprocess self = None ->
  (no_reference self = false ->
   c = (Z.to_nat (single_image_raw_depth self)
        + Z.to_nat (single_image_reference_depth self))%nat) ->
  Tensor.has_shape n n c crop ->
  Tensor.has_shape n n c (fst (fst (Transforms.image_transform self rng g crop))).
Proof.
  intros Hn Hpost Hdepth Hcrop.
  unfold Transforms.image_transform. destruct (make_seeds rng) as [s rng'].
  destruct (Transforms.before_post_process self s crop g) as [out g2] eqn:Hout.
  cbn [fst]. unfold Transforms.post_process_fn. rewrite Hpost.
  unfold Transforms.no_op.
  assert (Hout' : out = fst (Transforms.before_post_process self s crop g))
    by now rewrite Hout.
  clear Hout. subst out.
  pose proof (apply_transforms_invariant _ _ s (stage_a_square self s n c Hn) crop g Hcrop)
    as Ha.
  destruct (no_reference self) eqn:Href.
  - (* no reference: stage B alone *)
    unfold Transforms.before_post_process.
    destruct (Transforms.apply_transforms (Transforms.image_label_transforms self) s crop g)
      as [a g1]. cbn [fst] in Ha.
    destruct (Transforms.apply_transforms (Transforms.image_pixels_transforms self) s a g1)
      as [b g3] eqn:Hb. rewrite Href. cbn [negb fst].
    replace b with (fst (Transforms.apply_transforms
                           (Transforms.image_pixels_transforms self) s a g1))
      by now rewrite Hb.
    apply apply_transforms_invariant; [|exact Ha].
    unfold Transforms.image_pixels_transforms. rewrite Href. cbn [negb Transforms.when app].
    apply stage_b_shape.
  - specialize (Hdepth eq_refl).
    rewrite (before_post_process_with_reference self s crop g _ Href)
      by (unfold Transforms.image_pixels_transforms; rewrite Href; reflexivity).
    rewrite Hdepth in *.
    apply has_shape_concat_channels.
    + apply has_shape_map_pixels.
      apply apply_transforms_invariant; [apply stage_b_shape|].
      unfold Transforms.get_image_channels.
      eapply has_shape_slice_channels; [|exact Ha]. lia.
    + apply has_shape_map_pixels. unfold Transforms.reference_slice.
      eapply has_shape_slice_channels; [|exact Ha]. lia.
Qed.

Lemma map_transform_Forall (self : FileListProcessor) (P Q : image -> Prop)
      (crops : list image) :
  (forall rng g crop, P crop -> Q (fst (fst (Transforms.image_transform self rng g crop)))) ->
  Forall P crops ->
  forall rng g, Forall Q (Stream.map_transform self rng g crops).
Proof.
  intros HPQ. induction 1 as [|c crops Hc Hcrops IH]; intros rng g; cbn [Stream.map_transform].
  - constructor.
  - pose proof (HPQ rng g c Hc) as Hq.
    destruct (Transforms.image_transform self rng g c) as [[t rng'] g'].
    constructor; [exact Hq|apply IH].
Qed.

Lemma generate_all_Forall (self : FileListProcessor) (P : image -> Prop)
      (files : list string) :
  (forall f g g' crops, In f files ->
     Stream.crops_dataset self g f = inr (crops, g') -> Forall P crops) ->
  forall g g' per_file,
    Stream.generate_all self g files = inr (per_file, g') -> Forall (Forall P) per_file.
Proof.
  induction files as [|f files IH]; intros Hf g g' per_file H; cbn [Stream.generate_all] in H.
  - injection H as <- <-. constructor.
  - destruct (Stream.crops_dataset self g f) as [e|[crops g1]] eqn:Ec; [discriminate|].
    cbn [bind] in H.
    destruct (Stream.generate_all self g1 files) as [e|[rest g2]] eqn:Er; [discriminate|].
    cbn [bind] in H. injection H as <- <-. constructor.
    + apply (Hf f g g1); [now left|exact Ec].
    + eapply IH; [|exact Er]. intros f' ga gb cs Hin. apply Hf. now right.
Qed.

Lemma batch_Forall {A : Type} (P : A -> Prop) (n : nat) (l : list A) :
  Forall P l -> Forall (Forall P) (Stream.batch n l).
Proof.
  intros Hl. unfold Stream.batch. destruct n as [|n]; [constructor|].
  destruct (batch_loop_spec (S n) ltac:(lia) (length l) l (le_n _)) as [_ [Hc _]].
  apply Forall_concat. rewrite Hc. rewrite Forall_forall in *. intros x Hx. apply Hl.
  rewrite <- (firstn_skipn (S n * (length l / S n)) l). apply in_or_app. now left.
Qed.

(** X12.  Without a post-process function, every sample of every batch
    of a run has the shape [[patchSize, patchSize, depth]], where [depth] is
    the channel depth of the images read (raw plus reference channels when
    there is a reference): flips, the random quarter turn, the raw slice and
    its re-concatenation with the reference, whitening and the photometric
    ops all keep it, as long as the library's photometric ops keep shapes. *)
Theorem run_samples_have_patch_shape (self : FileListProcessor) (g : global_generator)
        (batches : list (list image)) (c : nat) :
  0 < patchSize self ->
  crops_postprocess self = None ->
  (no_reference self = false ->
   c = (Z.to_nat (single_image_raw_depth self)
        + Z.to_nat (single_image_reference_depth self))%nat) ->
  (forall f img, In f (filelist self) -> image_loading_fn self f = inr img ->
                 exists h w, Tensor.has_shape h w c img) ->
  Stream.run self g = inr batches ->
  Forall (Forall (Tensor.has_shape (Z.to_nat (patchSize self))
                                   (Z.to_nat (patchSize self)) c)) batches.
Proof.
  intros Hps Hpost Hdepth Hfiles. unfold Stream.run.
  destruct (Stream.generate_all self g
              (concat (repeat (filelist self) (Z.to_nat (nbEpoch self)))))
    as [e|[per_file g']] eqn:Hgen; [discriminate|].
  cbn [bind]. intros H. injection H as <-.
  set (P := Tensor.has_shape (Z.to_nat (patchSize self)) (Z.to_nat (patchSize self)) c).
  assert (Hper : Forall (Forall P) per_file).
  { apply (generate_all_Forall self P _) with (2 := Hgen).
    intros f g0 g1 crops Hin. apply crops_dataset_Forall_shape.
    intros img Himg. apply (Hfiles f img); [|exact Himg].
    apply in_concat in Hin as [l [Hl Hf]]. apply repeat_spec in Hl. now subst l. }
  apply batch_Forall. apply (map_transform_Forall self P P).
  - intros rng g0 crop Hcrop. apply image_transform_square; try assumption. lia.
  - apply Forall_concat in Hper.
    rewrite Forall_forall in *. intros crop Hin. apply Hper.
    exact (interleave_incl _ _ _ Hin).
Qed.

End SampleShape.

Lemma run_samples_have_patch_shape_witness :
  Forall (Forall (Tensor.has_shape 2 2 2)) CaseRuns.rot90_batches.
Proof.
  refine (run_samples_have_patch_shape (ops := Fixtures.plain_ops) (laws := plain_ops_shape)
            Fixtures.rot90_self Fixtures.zero_generator CaseRuns.rot90_batches 2
            _ _ _ _ _).
  - reflexivity.
  - reflexivity.
  - intros _. reflexivity.
  - intros f img _ Himg. vm_compute in Himg. injection Himg as <-.
    exists 4%nat, 4%nat. split; [reflexivity|]. repeat constructor.
  - vm_compute. reflexivity.
Defined.

(** ** Whitening with a reference *)

Section Whitening.

Context {ops : ImageOps} {laws : ShapePreserving ops}.

(** X13.  On a sample with a reference, [_whiten_sample] returns a
    tensor of the shape of its input whose reference channels are those of
    the input, cast to the output type and otherwise untouched, and whose raw
    channels are the cast of the standardized raw channels. *)
Theorem whiten_sample_keeps_reference (self : FileListProcessor) (sample : image)
        (h w : nat) :
  no_reference self = false ->
  Tensor.has_shape h w (Z.to_nat (single_image_raw_depth self)
                        + Z.to_nat (single_image_reference_depth self)) sample ->
  exists out,
    Transforms._whiten_sample self sample = inr out /\
    Tensor.has_shape h w (Z.to_nat (single_image_raw_depth self)
                          + Z.to_nat (single_image_reference_depth self)) out /\
    Transforms.reference_slice self out
    = cast (out_dtype self) (Transforms.reference_slice self sample) /\
    Tensor.slice_channels 0 (Z.to_nat (single_image_raw_depth self)) out
    = cast (out_dtype self)
           (per_image_standardization
              (Tensor.slice_channels 0 (Z.to_nat (single_image_raw_depth self)) sample)).
Proof.
  intros Href Hshape. unfold Transforms._whiten_sample. rewrite Href. cbn [negb].
  eexists. split; [reflexivity|].
  assert (Hraw : Tensor.has_shape h w (Z.to_nat (single_image_raw_depth self))
                   (cast (out_dtype self)
                      (per_image_standardization
                         (Tensor.slice_channels 0 (Z.to_nat (single_image_raw_depth self))
                                                sample)))).
  { apply has_shape_map_pixels, standardization_shape.
    eapply has_shape_slice_channels; [|exact Hshape]. lia. }
  assert (Hlab : Tensor.has_shape h w (Z.to_nat (single_image_reference_depth self))
                   (cast (out_dtype self) (Transforms.reference_slice self sample))).
  { apply has_shape_map_pixels. unfold Transforms.reference_slice.
    eapply has_shape_slice_channels; [|exact Hshape]. lia. }
  split; [now apply has_shape_concat_channels|].
  unfold Transforms.reference_slice at 1.
  exact (slice_concat_channels h w _ _ _ _ Hraw Hlab).
Qed.

End Whitening.

Lemma whiten_sample_keeps_reference_witness :
  exists out,
    Transforms._whiten_sample (ops := Fixtures.plain_ops)
      (Fixtures.bare_self false false true false false 2 1 None None float32)
      Fixtures.small_composite = inr out /\
    Tensor.has_shape 2 2 3 out /\
    Transforms.reference_slice
      (Fixtures.bare_self false false true false false 2 1 None None float32) out
    = cast float32
        (Transforms.reference_slice
           (Fixtures.bare_self false false true false false 2 1 None None float32)
           Fixtures.small_composite) /\
    Tensor.slice_channels 0 2 out
    = cast float32 (Tensor.slice_channels 0 2 Fixtures.small_composite).
Proof.
  refine (whiten_sample_keeps_reference (ops := Fixtures.plain_ops) (laws := plain_ops_shape)
            (Fixtures.bare_self false false true false false 2 1 None None float32)
            Fixtures.small_composite 2 2 _ _).
  - reflexivity.
  - split; [reflexivity|]. repeat constructor.
Defined.

(** ** Windows over the lines of a CSV file *)

Lemma window_loop_spec {A : Type} (size shift : nat) :
  (1 <= size)%nat -> (1 <= shift)%nat ->
  forall (fuel : nat) (l : list A),
    (length l <= fuel)%nat ->
    TimeSeries.window_loop fuel size shift l
    = map (fun k => firstn size (skipn (k * shift) l))
          (seq 0 (TimeSeries.sample_count size shift (length l))).
Proof.
  intros Hsize Hshift. induction fuel as [|fuel IH]; intros l Hl.
  - assert (l = []) by (destruct l; [reflexivity|simpl in Hl; lia]). subst.
    unfold TimeSeries.sample_count. cbn [length TimeSeries.window_loop].
    destruct (Nat.leb_spec size 0); [lia|reflexivity].
  - cbn [TimeSeries.window_loop]. unfold TimeSeries.sample_count.
    destruct (Nat.leb_spec size (length l)) as [Hfit|Hshort]; [|reflexivity].
    cbn [seq map]. rewrite Nat.mul_0_l. cbn [skipn]. f_equal.
    rewrite IH by (rewrite length_skipn; lia).
    rewrite <- seq_shift, map_map. unfold TimeSeries.sample_count.
    rewrite length_skipn.
    assert (Hcount : ((if (size <=? length l - shift)%nat
                       then S ((length l - shift - size) / shift) else 0)
                      = (length l - size) / shift)%nat).
    { destruct (Nat.leb_spec size (length l - shift)) as [H1|H1].
      - replace (length l - size)%nat with ((length l - shift - size) + 1 * shift)%nat by lia.
        rewrite Nat.div_add by lia. lia.
      - rewrite Nat.div_small by lia. reflexivity. }
    rewrite Hcount. apply map_ext. intros k.
    rewrite skipn_skipn. do 2 f_equal. lia.
Qed.

Lemma batch_of_full_window {A : Type} (n : nat) (window : list A) :
  (1 <= n)%nat -> length window = n -> Stream.batch n window = [window].
Proof.
  intros Hn Hlen. unfold Stream.batch. destruct n as [|n]; [lia|].
  rewrite Hlen. cbn [Stream.batch_loop]. rewrite Hlen, Nat.leb_refl.
  rewrite firstn_all2, skipn_all2 by lia. f_equal.
  destruct n; reflexivity.
Qed.

(** X14.  [FileListProcessor_csv_time_series] takes from a file holding a
    header line and [n] data lines the windows of [temporal_series_length]
    consecutive data lines that start every [windowing_shift] lines: sample
    [k] holds the data lines [k * shift] to [k * shift + length - 1], there are
    [(n - length) / shift + 1] samples when [length <= n] and none otherwise,
    and the header line is in none of them. *)
Theorem csv_samples_are_sliding_windows (temporal_series_length windowing_shift : nat)
        (header : string) (data : list string) :
  (1 <= temporal_series_length)%nat ->
  (1 <= windowing_shift)%nat ->
  TimeSeries.file_samples temporal_series_length windowing_shift (header :: data)
  = inr (map (fun k => firstn temporal_series_length (skipn (k * windowing_shift) data))
             (seq 0 (TimeSeries.sample_count temporal_series_length windowing_shift
                                             (length data)))) /\
  forall samples,
    TimeSeries.file_samples temporal_series_length windowing_shift (header :: data)
    = inr samples ->
    length samples
    = TimeSeries.sample_count temporal_series_length windowing_shift (length data) /\
    Forall (fun sample => length sample = temporal_series_length) samples.
Proof.
  intros Hsize Hshift.
  assert (Hrun : TimeSeries.file_samples temporal_series_length windowing_shift
                   (header :: data)
                 = inr (map (fun k => firstn temporal_series_length
                                             (skipn (k * windowing_shift) data))
                            (seq 0 (TimeSeries.sample_count temporal_series_length
                                      windowing_shift (length data))))).
  { unfold TimeSeries.file_samples, TimeSeries.window. cbn [skipn].
    destruct (Nat.eqb_spec temporal_series_length 0); [lia|].
    destruct (Nat.eqb_spec windowing_shift 0); [lia|].
    cbn [bind ok]. unfold ok. f_equal.
    rewrite (window_loop_spec _ _ Hsize Hshift _ data (le_n _)).
    set (count := TimeSeries.sample_count temporal_series_length windowing_shift
                    (length data)).
    assert (Hfull : forall k, In k (seq 0 count) ->
              length (firstn temporal_series_length (skipn (k * windowing_shift) data))
              = temporal_series_length).
    { intros k Hk. apply in_seq in Hk. rewrite length_firstn, length_skipn.
      unfold count, TimeSeries.sample_count in Hk.
      destruct (Nat.leb_spec temporal_series_length (length data)) as [Hfit|Hshort]; [|lia].
      assert (k * windowing_shift <= length data - temporal_series_length)%nat.
      { transitivity (((length data - temporal_series_length) / windowing_shift)
                      * windowing_shift)%nat.
        - apply Nat.mul_le_mono_r. lia.
        - rewrite Nat.mul_comm. apply Nat.Div0.mul_div_le. }
      lia. }
    revert Hfull. generalize (seq 0 count). intros ks Hfull.
    induction ks as [|k ks IH]; [reflexivity|].
    cbn [map flat_map]. rewrite batch_of_full_window by (auto; apply Hfull; now left).
    cbn [app]. f_equal. apply IH. intros k' Hk'. apply Hfull. now right. }
  split; [exact Hrun|].
  intros samples Hsamples. rewrite Hrun in Hsamples. injection Hsamples as <-.
  rewrite length_map, length_seq. split; [reflexivity|].
  apply Forall_forall. intros sample Hin. apply in_map_iff in Hin as [k [<- Hk]].
  apply in_seq in Hk. rewrite length_firstn, length_skipn.
  unfold TimeSeries.sample_count in Hk.
  destruct (Nat.leb_spec temporal_series_length (length data)) as [Hfit|Hshort]; [|lia].
  assert (k * windowing_shift <= length data - temporal_series_length)%nat.
  { transitivity (((length data - temporal_series_length) / windowing_shift)
                  * windowing_shift)%nat.
    - apply Nat.mul_le_mono_r. lia.
    - rewrite Nat.mul_comm. apply Nat.Div0.mul_div_le. }
  lia.
Qed.

Lemma csv_samples_are_sliding_windows_witness :
  TimeSeries.file_samples 3 2 ["t,x"; "0,a"; "1,b"; "2,c"; "3,d"; "4,e"; "5,f"]
  = inr [["0,a"; "1,b"; "2,c"]; ["2,c"; "3,d"; "4,e"]].
Proof.
  apply (csv_samples_are_sliding_windows 3 2 "t,x"
           ["0,a"; "1,b"; "2,c"; "3,d"; "4,e"; "5,f"]); lia.
Defined.

(** ** File names through [the_ugly_string_manager] *)

Lemma escape_plain (quote c : Ascii.ascii) :
  negb (Ascii.eqb c quote) && PyBytes.printable c = true ->
  PyBytes.escape quote c = [c].
Proof.
  unfold PyBytes.printable, PyBytes.escape. intros H.
  apply andb_prop in H as [Hq H]. apply andb_prop in H as [H Hb].
  apply andb_prop in H as [Hlo Hhi].
  apply negb_true_iff in Hq, Hb. rewrite Hq, Hb. cbn [orb].
  apply N.leb_le in Hlo. apply N.ltb_lt in Hhi.
  destruct (N.eqb_spec (Ascii.N_of_ascii c) 9); [lia|].
  destruct (N.eqb_spec (Ascii.N_of_ascii c) 10); [lia|].
  destruct (N.eqb_spec (Ascii.N_of_ascii c) 13); [lia|].
  destruct (N.ltb_spec (Ascii.N_of_ascii c) 32); [lia|].
  destruct (N.leb_spec 127 (Ascii.N_of_ascii c)); [lia|]. reflexivity.
Qed.

Lemma escape_length (quote c : Ascii.ascii) :
  (1 <= length (PyBytes.escape quote c))%nat /\
  (negb (Ascii.eqb c quote) && PyBytes.printable c = false ->
   (2 <= length (PyBytes.escape quote c))%nat).
Proof.
  unfold PyBytes.printable, PyBytes.escape.
  destruct (Ascii.eqb c quote); cbn [orb negb andb]; [cbn [length]; lia|].
  destruct (Ascii.eqb c PyBytes.backslash); cbn [orb negb andb]; [cbn [length]; lia|].
  destruct (N.eqb_spec (Ascii.N_of_ascii c) 9); [cbn [length]; lia|].
  destruct (N.eqb_spec (Ascii.N_of_ascii c) 10); [cbn [length]; lia|].
  destruct (N.eqb_spec (Ascii.N_of_ascii c) 13); [cbn [length]; lia|].
  destruct (N.ltb_spec (Ascii.N_of_ascii c) 32) as [Hlo|Hlo]; [cbn [orb length]; lia|].
  destruct (N.leb_spec 127 (Ascii.N_of_ascii c)) as [Hhi|Hhi]; cbn [orb length];
    [lia|].
  split; [lia|]. intros H. exfalso.
  apply N.leb_le in Hlo. apply N.ltb_lt in Hhi. rewrite Hlo, Hhi in H. discriminate.
Qed.

Lemma escaped_bytes (quote : Ascii.ascii) (bytes : list Ascii.ascii) :
  (length bytes <= length (flat_map (PyBytes.escape quote) bytes))%nat /\
  (forallb (fun c => negb (Ascii.eqb c quote) && PyBytes.printable c) bytes = true ->
   flat_map (PyBytes.escape quote) bytes = bytes) /\
  (forallb (fun c => negb (Ascii.eqb c quote) && PyBytes.printable c) bytes = false ->
   (length bytes < length (flat_map (PyBytes.escape quote) bytes))%nat).
Proof.
  induction bytes as [|c bytes [IHle [IHeq IHlt]]]; cbn [flat_map forallb length].
  - split; [lia|]. split; [reflexivity|discriminate].
  - rewrite length_app. destruct (escape_length quote c) as [H1 H2].
    split; [lia|]. split.
    + intros H. apply andb_prop in H as [Hc Hrest].
      rewrite (escape_plain quote c Hc), (IHeq Hrest). reflexivity.
    + intros H. apply andb_false_iff in H as [Hc|Hrest].
      * specialize (H2 Hc). lia.
      * specialize (IHlt Hrest). lia.
Qed.

Lemma forallb_not_quote (quote : Ascii.ascii) (bytes : list Ascii.ascii) :
  forallb (fun c => negb (Ascii.eqb c quote) && PyBytes.printable c) bytes
  = negb (PyBytes.contains quote bytes) && forallb PyBytes.printable bytes.
Proof.
  unfold PyBytes.contains. induction bytes as [|c bytes IH]; [reflexivity|].
  cbn [forallb existsb]. rewrite IH, (Ascii.eqb_sym quote c).
  destruct (Ascii.eqb c quote), (existsb (Ascii.eqb quote) bytes),
    (PyBytes.printable c); reflexivity.
Qed.

Lemma string_length_of_list (l : list Ascii.ascii) :
  String.length (string_of_list_ascii l) = length l.
Proof. induction l as [|c l IH]; [reflexivity|]. cbn. now rewrite IH. Qed.

(** X15.  [the_ugly_string_manager] always returns, and it returns the
    file name it is given exactly when every byte of the name is printable
    ASCII (0x20 to 0x7e) other than the backslash and the name does not hold
    both kinds of quote.  Any other name (a backslash, a control or non-ASCII
    byte, both quotes) comes back strictly longer, escaped as in the [repr]
    of its bytes, so that it names another file. *)
Theorem string_manager_identity_on_plain_names (filename : string) :
  exists filename_str,
    the_ugly_string_manager filename = inr filename_str /\
    (filename_str = filename <-> PyBytes.plain (list_ascii_of_string filename) = true) /\
    (PyBytes.plain (list_ascii_of_string filename) = false ->
     (String.length filename < String.length filename_str)%nat).
Proof.
  unfold the_ugly_string_manager, PyBytes.repr.
  set (bytes := list_ascii_of_string filename).
  set (quote := if PyBytes.contains PyBytes.single_quote bytes
                   && negb (PyBytes.contains PyBytes.double_quote bytes)
                then PyBytes.double_quote else PyBytes.single_quote).
  rewrite Ascii.eqb_refl. unfold PyBytes.slice_2_to_last. cbn [skipn].
  rewrite removelast_last. eexists. split; [reflexivity|].
  destruct (escaped_bytes quote bytes) as [Hle [Heq Hlt]].
  assert (Hplain : forallb (fun c => negb (Ascii.eqb c quote) && PyBytes.printable c) bytes
                   = PyBytes.plain bytes).
  { rewrite forallb_not_quote. unfold PyBytes.plain, quote.
    destruct (PyBytes.contains PyBytes.single_quote bytes) eqn:Hs,
             (PyBytes.contains PyBytes.double_quote bytes) eqn:Hd;
      cbn [andb negb]; rewrite ?Hs, ?Hd; cbn [andb negb];
      destruct (forallb PyBytes.printable bytes); reflexivity. }
  rewrite Hplain in Heq, Hlt.
  assert (Hlen : String.length filename = length bytes).
  { unfold bytes. rewrite <- (string_of_list_ascii_of_string filename) at 1.
    apply string_length_of_list. }
  split; [split|].
  - intros Hsame. destruct (PyBytes.plain bytes); [reflexivity|].
    specialize (Hlt eq_refl). apply (f_equal String.length) in Hsame.
    rewrite string_length_of_list, Hlen in Hsame. lia.
  - intros Hp. rewrite (Heq Hp). apply string_of_list_ascii_of_string.
  - intros Hp. rewrite string_length_of_list, Hlen. exact (Hlt Hp).
Qed.

(** ** Descriptors of raw and reference file pairs *)

Lemma append_assoc_string (a b c : string) :
  ((a ++ b) ++ c = a ++ (b ++ c))%string.
Proof. induction a as [|ch a IH]; [reflexivity|]. cbn. now rewrite IH. Qed.

Lemma append_empty_r (a : string) : (a ++ EmptyString)%string = a.
Proof. induction a as [|ch a IH]; [reflexivity|]. cbn. now rewrite IH. Qed.

Lemma prefix_separator_other (c : Ascii.ascii) (rest : string) :
  Ascii.eqb c "#"%char = false ->
  String.prefix Init.filenames_separator (String c rest) = false.
Proof.
  intros Hc. apply Ascii.eqb_neq in Hc. unfold Init.filenames_separator.
  cbn [String.prefix]. destruct (Ascii.ascii_dec "#"%char c) as [E|E]; [|reflexivity].
  exfalso. apply Hc. now symmetry.
Qed.

Lemma split_loop_hash_free (s current : string) :
  Descriptor.hash_free s = true ->
  Descriptor.split_loop Init.filenames_separator 0 current s = [(current ++ s)%string].
Proof.
  revert current. induction s as [|c s IH]; intros current Hs.
  - cbn [Descriptor.split_loop]. now rewrite append_empty_r.
  - cbn [Descriptor.hash_free] in Hs. apply andb_prop in Hs as [Hc Hs].
    apply negb_true_iff in Hc. cbn [Descriptor.split_loop].
    rewrite (prefix_separator_other c s Hc), (IH _ Hs), append_assoc_string.
    reflexivity.
Qed.

Lemma split_loop_descriptor (raw rest current : string) :
  Descriptor.hash_free raw = true ->
  Descriptor.split_loop Init.filenames_separator 0 current
    (raw ++ Init.filenames_separator ++ rest)%string
  = (current ++ raw)%string
    :: Descriptor.split_loop Init.filenames_separator 0 EmptyString rest.
Proof.
  revert current. induction raw as [|c raw IH]; intros current Hraw.
  - rewrite append_empty_r. unfold Init.filenames_separator.
    cbn [String.append Descriptor.split_loop String.prefix String.length Nat.sub].
    destruct (Ascii.ascii_dec "#"%char "#"%char) as [_|E]; [|now elim E].
    destruct rest; reflexivity.
  - cbn [Descriptor.hash_free] in Hraw. apply andb_prop in Hraw as [Hc Hraw].
    apply negb_true_iff in Hc. cbn [String.append Descriptor.split_loop].
    rewrite (prefix_separator_other c _ Hc), (IH _ Hraw), append_assoc_string.
    reflexivity.
Qed.

Lemma split_filenames_hash_free (raw ref : string) :
  Descriptor.hash_free raw = true -> Descriptor.hash_free ref = true ->
  Descriptor.split_filenames (EmptyString ++ raw ++ Init.filenames_separator ++ ref)%string
  = inr (raw, ref).
Proof.
  intros Hraw Href. unfold Descriptor.split_filenames, Descriptor.strings_split.
  cbn [String.append]. rewrite (split_loop_descriptor raw ref EmptyString Hraw).
  rewrite (split_loop_hash_free ref EmptyString Href). reflexivity.
Qed.

(** X16.  The descriptors of raw and reference file pairs decode to the
    pairs they were built from: the list of descriptors has the length of the
    shorter of the two file lists (files beyond it are dropped without an
    error), descriptor [k] is [raw_k ### ref_k], and when neither name holds
    a [#] the loader's split gives back exactly [raw_k] and [ref_k]. *)
Theorem descriptors_decode_to_their_pair (a : Args.t) (refs : list string) :
  Args.filelist_reference_data a = RefFiles refs ->
  length (Init.datasetFiles a)
  = Nat.min (length (Args.filelist_raw_data a)) (length refs) /\
  forall k d,
    nth_error (Init.datasetFiles a) k = Some d ->
    exists raw ref,
      nth_error (Args.filelist_raw_data a) k = Some raw /\
      nth_error refs k = Some ref /\
      d = (raw ++ Init.filenames_separator ++ ref)%string /\
      (Descriptor.hash_free raw = true -> Descriptor.hash_free ref = true ->
       Descriptor.split_filenames d = inr (raw, ref)).
Proof.
  intros Hrefs. unfold Init.datasetFiles. rewrite Hrefs.
  split; [now rewrite length_map, length_combine|].
  clear Hrefs. generalize (Args.filelist_raw_data a). intros raws. revert refs.
  induction raws as [|raw raws IH]; intros [|ref refs] k d Hk;
    try (destruct k; discriminate Hk).
  destruct k as [|k].
  - cbn in Hk. injection Hk as <-. exists raw, ref.
    split; [reflexivity|]. split; [reflexivity|]. split; [reflexivity|].
    apply split_filenames_hash_free.
  - cbn [combine map nth_error] in Hk. destruct (IH refs k d Hk) as [r [f H]].
    exists r, f. exact H.
Qed.

Lemma descriptors_decode_to_their_pair_witness :
  length (Init.datasetFiles (Fixtures.pair_args 0)) = 2%nat /\
  forall k d,
    nth_error (Init.datasetFiles (Fixtures.pair_args 0)) k = Some d ->
    exists raw ref,
      nth_error ["a.tif"; "b.tif"] k = Some raw /\
      nth_error ["a_ref.png"; "b_ref.png"] k = Some ref /\
      d = (raw ++ Init.filenames_separator ++ ref)%string /\
      (Descriptor.hash_free raw = true -> Descriptor.hash_free ref = true ->
       Descriptor.split_filenames d = inr (raw, ref)).
Proof.
  apply (descriptors_decode_to_their_pair (Fixtures.pair_args 0) ["a_ref.png"; "b_ref.png"]).
  reflexivity.
Defined.

(** X17.  A [#] at the end of a raw file name moves to the reference
    name: the descriptor of [raw#] and [ref] decodes to [raw] and [#ref], so
    that neither file read is the one listed. *)
Theorem trailing_hash_shifts_the_split (raw ref : string) :
  Descriptor.hash_free raw = true ->
  Descriptor.hash_free ref = true ->
  Descriptor.split_filenames
    (EmptyString ++ (raw ++ "#") ++ Init.filenames_separator ++ ref)%string
  = inr (raw, ("#" ++ ref)%string).
Proof.
  intros Hraw Href. unfold Descriptor.split_filenames, Descriptor.strings_split.
  cbn [String.append].
  replace ((raw ++ "#") ++ Init.filenames_separator ++ ref)%string
    with (raw ++ Init.filenames_separator ++ ("#" ++ ref))%string
    by (rewrite append_assoc_string; reflexivity).
  rewrite (split_loop_descriptor raw _ EmptyString Hraw).
  assert (Hrest : Descriptor.split_loop Init.filenames_separator 0 EmptyString
                    ("#" ++ ref)%string = [("#" ++ ref)%string]).
  { unfold Init.filenames_separator. cbn [String.append Descriptor.split_loop String.prefix].
    destruct (Ascii.ascii_dec "#"%char "#"%char) as [_|E]; [|now elim E].
    destruct ref as [|c ref]; [reflexivity|].
    cbn [Descriptor.hash_free] in Href. apply andb_prop in Href as [Hc Href].
    apply negb_true_iff in Hc.
    assert (Hp : String.prefix "##" (String c ref) = false).
    { apply Ascii.eqb_neq in Hc. cbn [String.prefix].
      destruct (Ascii.ascii_dec "#"%char c) as [E|_]; [|reflexivity].
      exfalso. apply Hc. now symmetry. }
    rewrite Hp.
    apply (split_loop_hash_free (String c ref) "#").
    cbn [Descriptor.hash_free]. now rewrite Hc, Href. }
  rewrite Hrest. reflexivity.
Qed.

Lemma trailing_hash_shifts_the_split_witness :
  Descriptor.split_filenames "img####ref.png" = inr ("img", "#ref.png").
Proof.
  exact (trailing_hash_shifts_the_split "img" "ref.png" eq_refl eq_refl).
Defined.

(** ** The pipeline with every augmentation off *)

Lemma combine_map_same {A B C : Type} (f : A -> B) (g : A -> C) (l : list A) :
  combine (map f l) (map g l) = map (fun x => (f x, g x)) l.
Proof. induction l as [|x l IH]; [reflexivity|]. cbn. now rewrite IH. Qed.

Lemma slice_list_rejoin {A : Type} (a b : nat) (l : list A) :
  length l = (a + b)%nat ->
  Tensor.slice_list 0 a l ++ Tensor.slice_list a b l = l.
Proof.
  intros Hl. unfold Tensor.slice_list. cbn [skipn].
  rewrite (firstn_all2 (n := b) (skipn a l)) by (rewrite length_skipn; lia).
  apply firstn_skipn.
Qed.

(** Slicing a tensor in two along its channels, mapping both parts and
    concatenating them is mapping the tensor. *)
Lemma concat_of_mapped_slices (f : pixel -> pixel) (h w a b : nat) (img : image) :
  Tensor.has_shape h w (a + b) img ->
  Tensor.concat_channels (Tensor.map_pixels f (Tensor.slice_channels 0 a img))
                         (Tensor.map_pixels f (Tensor.slice_channels a b img))
  = Tensor.map_pixels f img.
Proof.
  intros [_ Hrows]. rewrite Forall_forall in Hrows.
  unfold Tensor.concat_channels, Tensor.map_pixels, Tensor.slice_channels.
  rewrite !map_map, combine_map_same, map_map. apply map_ext_in. intros row Hrow.
  destruct (Hrows row Hrow) as [_ Hpx]. rewrite Forall_forall in Hpx.
  rewrite !map_map, combine_map_same, map_map. apply map_ext_in. intros px Hin.
  rewrite <- map_app. f_equal. apply slice_list_rejoin. now apply Hpx.
Qed.

Section PlainPipeline.

Context {ops : ImageOps}.

(** X18.  With every augmentation off (no NaN replacement, no flip, no
    quarter turn, no whitening, no photometric op, no post-process function)
    the sample is the crop: cast to the output type as a whole when there is
    a reference, and returned as it is, without the cast, when there is none. *)
Theorem plain_pipeline_returns_the_crop (self : FileListProcessor) (rng : philox)
        (g : global_generator) (crop : image) (h w : nat) :
  Transforms.nan_mode_is self "zeros" = false ->
  apply_random_flip_left_right self = false ->
  apply_random_flip_up_down self = false ->
  apply_random_rot90 self = false ->
  apply_whitening self = false ->
  apply_random_brightness self = None ->
  apply_random_saturation self = None ->
  apply_random_contrast self = None ->
  crops_postprocess self = None ->
  (no_reference self = true ->
   fst (fst (Transforms.image_transform self rng g crop)) = crop) /\
  (no_reference self = false ->
   Tensor.has_shape h w (Z.to_nat (single_image_raw_depth self)
                         + Z.to_nat (single_image_reference_depth self)) crop ->
   fst (fst (Transforms.image_transform self rng g crop)) = cast (out_dtype self) crop).
Proof.
  intros Hnan Hlr Hud Hrot Hwhite Hbright Hsat Hcon Hpost.
  unfold Transforms.image_transform, Transforms.before_post_process,
    Transforms.post_process_fn, Transforms.image_label_transforms,
    Transforms.image_pixels_transforms.
  rewrite Hnan, Hlr, Hud, Hrot, Hwhite, Hbright, Hsat, Hcon, Hpost.
  destruct (make_seeds rng) as [s rng'].
  cbn [Transforms.when Transforms.when_some app].
  split; intros Href; rewrite Href;
    cbn [negb Transforms.when app Transforms.apply_transforms fold_left
         Transforms.stateless fst snd Transforms.no_op].
  - reflexivity.
  - intros Hshape. unfold Transforms.get_image_channels, Transforms.reference_slice, cast.
    exact (concat_of_mapped_slices _ h w _ _ crop Hshape).
Qed.

End PlainPipeline.

Lemma plain_pipeline_returns_the_crop_witness :
  (no_reference (Fixtures.bare_self false false false false false 2 1 None None float16)
   = true ->
   fst (fst (Transforms.image_transform (ops := Fixtures.plain_ops)
               (Fixtures.bare_self false false false false false 2 1 None None float16)
               (from_seed 7) Fixtures.zero_generator Fixtures.small_composite))
   = Fixtures.small_composite) /\
  (no_reference (Fixtures.bare_self false false false false false 2 1 None None float16)
   = false ->
   Tensor.has_shape 2 2 3 Fixtures.small_composite ->
   fst (fst (Transforms.image_transform (ops := Fixtures.plain_ops)
               (Fixtures.bare_self false false false false false 2 1 None None float16)
               (from_seed 7) Fixtures.zero_generator Fixtures.small_composite))
   = cast float16 Fixtures.small_composite).
Proof.
  apply (plain_pipeline_returns_the_crop (ops := Fixtures.plain_ops)
           (Fixtures.bare_self false false false false false 2 1 None None float16)
           (from_seed 7) Fixtures.zero_generator Fixtures.small_composite 2 2);
    reflexivity.
Defined.
